(** * SynthDicom: the cumulative-weight tables of [DescBodyPart]

    A shallow embedding of the C# code that
    [scripts/convert_descbodypart.py] writes into [DescBodyPart.cs]:

    - [InitializeDescBodyParts], which turns every [BucketList] of the
      raw table into a pair [(MaxWeight, Items)] where [Items] holds the
      running sums of the weights, and
    - [GetRandom], which draws a target from the random source and finds
      the entry to return by a binary search over [Items].

    C# [int] is a 32-bit two's-complement integer and the generated code
    is compiled in the default unchecked context, so every [int]
    operation of the source is written here with its wrap-around
    ([Int32.wrap]).  Exceptions are results of the embedding ([Thrown]);
    the [while] loop is run with fuel, and the theorems show how much
    fuel is enough. *)

From stdpp Require Import gmap strings list fin_maps.

Local Open Scope Z_scope.

(** ** 32-bit integers *)

Module Int32.

Definition MinValue : Z := -2147483648.
Definition MaxValue : Z := 2147483647.
Definition modulus : Z := 4294967296.

Definition InRange (z : Z) : Prop := MinValue <= z <= MaxValue.

(** The value an unchecked [int] expression has when its mathematical
    value is [z]. *)
Definition wrap (z : Z) : Z := (z - MinValue) `mod` modulus + MinValue.

Definition add (a b : Z) : Z := wrap (a + b).
Definition sub (a b : Z) : Z := wrap (a - b).
(** [/] on [int] truncates towards zero. *)
Definition div (a b : Z) : Z := wrap (a `quot` b).

End Int32.

(** ** Results of a call *)

Inductive exn : Type :=
  | IndexOutOfRangeException
  | ArgumentOutOfRangeException
  | UnknownKeyError
  | OtherException (msg : string).

Inductive result (A : Type) : Type :=
  | Returned (a : A)
  | Thrown (e : exn)
  | OutOfFuel.

Arguments Returned {A} a.
Arguments Thrown {A} e.
Arguments OutOfFuel {A}.

#[global] Instance exn_eq_dec : EqDecision exn.
Proof. solve_decision. Defined.

#[global] Instance result_eq_dec {A} `{EqDecision A} : EqDecision (result A).
Proof. solve_decision. Defined.

#[global] Instance result_ret : MRet result := fun A a => Returned a.

#[global] Instance result_bind : MBind result := fun A B k m =>
  match m with
  | Returned a => k a
  | Thrown e => Thrown e
  | OutOfFuel => OutOfFuel
  end.

(** ** Arrays *)

(** [a.Length].  It is an [int]: the theorems on arrays assume
    [Length a <= Int32.MaxValue], which every array satisfies. *)
Definition Length {A} (a : list A) : Z := Z.of_nat (length a).

(** [a[i]]: a checked access. *)
Definition Array_get {A} (a : list A) (i : Z) : result A :=
  if i <? 0 then Thrown IndexOutOfRangeException
  else match a !! Z.to_nat i with
       | Some x => Returned x
       | None => Thrown IndexOutOfRangeException
       end.

(** ** The random source

    [Next r maxValue] is what the call [r.Next(maxValue)] does in the
    state the source is in: it returns an integer or throws. *)
Record Random : Type := { Next : Z -> result Z }.

(** A [BucketList<T>] as the code reads it: the pairs
    [(item, probability)] in the order of its enumeration. *)
Abbreviation BucketList T := (list (T * Z)) (only parsing).

Section DescBodyPart.

(** The class of the values, of which the code uses nothing. *)
Variable DescBodyPart : Type.

(** [(int CumulativeWeight, DescBodyPart Value)] *)
Record Entry : Type := { CumulativeWeight : Z; Value : DescBodyPart }.

(** [(int MaxWeight, (int CumulativeWeight, DescBodyPart Value)[] Items)] *)
Record Data : Type := { MaxWeight : Z; Items : list Entry }.

(** *** Construction *)

(** The inner [foreach]: [cumulative] and [list_] are the two locals.
    [cumulative += probability] is an unchecked [int] addition and
    [list.Add] appends; no statement of the loop tests a weight or
    throws. *)
Fixpoint foreach_item (kvp_Value : BucketList DescBodyPart) (cumulative : Z)
    (list_ : list Entry) : Z * list Entry :=
  match kvp_Value with
  | [] => (cumulative, list_)
  | (item, probability) :: rest =>
      let cumulative := Int32.add cumulative probability in
      foreach_item rest cumulative
        (list_ ++ [ {| CumulativeWeight := cumulative; Value := item |} ])
  end.

(** The body of the outer [foreach]: the value stored under one key. *)
Definition Convert (kvp_Value : BucketList DescBodyPart) : Data :=
  let '(cumulative, list_) := foreach_item kvp_Value 0 [] in
  {| MaxWeight := cumulative; Items := list_ |}.

(** The outer [foreach] over the raw table [tempDict], which the
    generated code holds as a literal; it is a parameter here. *)
Definition InitializeDescBodyParts
    (tempDict : gmap string (BucketList DescBodyPart))
    : gmap string Data :=
  map_fold (fun kvp_Key kvp_Value result_ =>
              <[ kvp_Key := Convert kvp_Value ]> result_) ∅ tempDict.

(** Modelled from the spec: the registry's lookup operation [get(key)],
    which is not part of the generated code (the code only builds the
    read-only dictionary).  It fails with [UnknownKeyError] if the key
    is absent and returns the stored sampler otherwise. *)
Definition get (d : gmap string Data) (key : string) : result Data :=
  match d !! key with
  | Some data => Returned data
  | None => Thrown UnknownKeyError
  end.

(** *** Sampling *)

(** One iteration of the [while] loop; the state is [(left, right)]. *)
Definition loop_body (Items_ : list Entry) (target : Z) (st : Z * Z)
    : result (Z * Z) :=
  let left := fst st in
  let right := snd st in
  let mid := Int32.add left (Int32.div (Int32.sub right left) 2) in
  e ← Array_get Items_ mid;
  if CumulativeWeight e <=? target
  then Returned (Int32.add mid 1, right)
  else Returned (left, mid).

(** [while (left < right) { ... }] *)
Fixpoint while_loop (fuel : nat) (Items_ : list Entry) (target : Z)
    (st : Z * Z) : result (Z * Z) :=
  if fst st <? snd st then
    match fuel with
    | O => OutOfFuel
    | S fuel' =>
        st' ← loop_body Items_ target st;
        while_loop fuel' Items_ target st'
    end
  else Returned st.

(** The state in which the loop is entered:
    [left = 0, right = data.Items.Length - 1]. *)
Definition initial_state (Items_ : list Entry) : Z * Z :=
  (0, Int32.sub (Length Items_) 1).

(** The search of [GetRandom] for a given target: the final [left]. *)
Definition search (fuel : nat) (Items_ : list Entry) (target : Z)
    : result Z :=
  st ← while_loop fuel Items_ target (initial_state Items_);
  Returned (fst st).

(** [GetRandom(data, r)]: the draw, the search, and the final access
    [data.Items[left].Value]. *)
Definition GetRandom (fuel : nat) (data : Data) (r : Random)
    : result DescBodyPart :=
  target ← Next r (MaxWeight data);
  left ← search fuel (Items data) target;
  e ← Array_get (Items data) left;
  Returned (Value e).

End DescBodyPart.

Arguments CumulativeWeight {DescBodyPart} _.
Arguments Value {DescBodyPart} _.
Arguments MaxWeight {DescBodyPart} _.
Arguments Items {DescBodyPart} _.
Arguments foreach_item {DescBodyPart} _ _ _.
Arguments Convert {DescBodyPart} _.
Arguments InitializeDescBodyParts {DescBodyPart} _.
Arguments get {DescBodyPart} _ _.
Arguments loop_body {DescBodyPart} _ _ _.
Arguments while_loop {DescBodyPart} _ _ _ _.
Arguments initial_state {DescBodyPart} _.
Arguments search {DescBodyPart} _ _ _.
Arguments GetRandom {DescBodyPart} _ _ _.

(** ** Vocabulary of the statements *)

(** [cs] is strictly increasing: each element is above the one before. *)
Fixpoint strictly_increasing (cs : list Z) : bool :=
  match cs with
  | c1 :: ((c2 :: _) as tl) => (c1 <? c2) && strictly_increasing tl
  | _ => true
  end.

Definition sum_Z (ws : list Z) : Z := foldr Z.add 0 ws.

(** [cs] never decreases: each element is at least the one before. *)
Fixpoint nondecreasing (cs : list Z) : bool :=
  match cs with
  | c1 :: ((c2 :: _) as tl) => (c1 <=? c2) && nondecreasing tl
  | _ => true
  end.

(** The targets the random source can return for a given [MaxWeight]:
    the integers of [[0, MaxWeight)]. *)
Definition targets (maxValue : Z) : list Z := seqZ 0 maxValue.

Section Vocabulary.

Context {DescBodyPart : Type}.
Implicit Types (items : list (Entry DescBodyPart)) (st : Z * Z).
Implicit Types (data : Data DescBodyPart) (bl : BucketList DescBodyPart).

(** What the loop keeps true of [(left, right)], whatever the array
    holds: both are indices of the array and [left <= right]. *)
Definition in_bounds items st : Prop :=
  0 <= fst st /\ fst st <= snd st /\ snd st < Length items.

(** [right - left], the width of the interval still to search. *)
Definition width st : Z := snd st - fst st.

Definition cumulative_weights items : list Z := CumulativeWeight <$> items.

(** The invariant of the data model: the array is non-empty, its
    cumulative weights are strictly increasing and the last of them is
    [MaxWeight]. *)
Definition Invariant data : Prop :=
  Items data <> [] /\
  strictly_increasing (cumulative_weights (Items data)) = true /\
  last (cumulative_weights (Items data)) = Some (MaxWeight data).

(** Entry [i] is the leftmost one whose cumulative weight is strictly
    greater than [target]. *)
Definition leftmost_greater items (target : Z) (i : nat) : Prop :=
  (exists e, items !! i = Some e /\ target < CumulativeWeight e) /\
  (forall j e, (j < i)%nat -> items !! j = Some e ->
               CumulativeWeight e <= target).

(** What the search knows on the way: everything left of [left] is at
    most [target], and the entry at [right] is above it. *)
Definition search_inv items (target : Z) (st : Z * Z) : Prop :=
  in_bounds items st /\
  (forall j e, (j < Z.to_nat (fst st))%nat -> items !! j = Some e ->
               CumulativeWeight e <= target) /\
  (exists e, items !! Z.to_nat (snd st) = Some e /\
             target < CumulativeWeight e).

(** The weights of a bucket list, in order. *)
Definition weights bl : list Z := snd <$> bl.

(** The entries the inner [foreach] appends when it starts from the
    running sum [c]. *)
Fixpoint entries_from (c : Z) bl : list (Entry DescBodyPart) :=
  match bl with
  | [] => []
  | (item, probability) :: rest =>
      {| CumulativeWeight := Int32.add c probability; Value := item |}
      :: entries_from (Int32.add c probability) rest
  end.

(** The running sum the inner [foreach] ends with. *)
Fixpoint final_sum (c : Z) bl : Z :=
  match bl with
  | [] => c
  | (_, probability) :: rest => final_sum (Int32.add c probability) rest
  end.

(** A table the construction handles without overflow: non-empty,
    positive weights, and a sum that is an [int]. *)
Definition representable bl : Prop :=
  bl <> [] /\ Forall (fun w => 0 < w) (weights bl) /\
  sum_Z (weights bl) <= Int32.MaxValue.

(** A table with weights that may be zero but not negative, a positive
    sum that is an [int], and a length that is one. *)
Definition admissible bl : Prop :=
  Forall (fun w => 0 <= w) (weights bl) /\
  0 < sum_Z (weights bl) <= Int32.MaxValue /\
  Length bl <= Int32.MaxValue.

(** Where the search may stop on an array that need not be sorted: at
    an entry that is above [target] or is the last one, and whose left
    neighbour, if there is one, is at most [target]. *)
Definition crossing items (target : Z) (i : nat) : Prop :=
  (exists e, items !! i = Some e /\
             (target < CumulativeWeight e \/ S i = length items)) /\
  (i = 0%nat \/
   exists e', items !! pred i = Some e' /\ CumulativeWeight e' <= target).

(** What the search knows on the way on such an array. *)
Definition crossing_inv items (target : Z) (st : Z * Z) : Prop :=
  in_bounds items st /\
  (fst st = 0 \/
   exists e', items !! Z.to_nat (fst st - 1) = Some e' /\
              CumulativeWeight e' <= target) /\
  (snd st = Length items - 1 \/
   exists e, items !! Z.to_nat (snd st) = Some e /\
             target < CumulativeWeight e).

End Vocabulary.

(** The number of targets for which the search ends at entry [i]. *)
Definition selection_count {DescBodyPart : Type} (fuel : nat)
    (data : Data DescBodyPart) (i : nat) : nat :=
  length (filter (fun t => search fuel (Items data) t = Returned (Z.of_nat i))
                 (targets (MaxWeight data))).

(** ** Examples used below *)

Definition table_3_5_2 : BucketList string :=
  [("A"%string, 3); ("B"%string, 5); ("C"%string, 2)].

Definition data_3_5_2 : Data string :=
  {| MaxWeight := 10;
     Items := [ {| CumulativeWeight := 3; Value := "A"%string |};
                {| CumulativeWeight := 8; Value := "B"%string |};
                {| CumulativeWeight := 10; Value := "C"%string |} ] |}.

(** A random source whose next draw is [t]. *)
Definition returning (t : Z) : Random := {| Next := fun _ => Returned t |}.

(** The number of targets for which [GetRandom] returns the value [v]. *)
Definition value_count {DescBodyPart : Type} `{EqDecision DescBodyPart}
    (fuel : nat) (data : Data DescBodyPart) (v : DescBodyPart) : nat :=
  length (filter (fun t => GetRandom fuel data (returning t) = Returned v)
                 (targets (MaxWeight data))).

(** The weight a table gives to the value [v]: the sum of the weights of
    the pairs that hold it. *)
Definition weight_of {DescBodyPart : Type} `{EqDecision DescBodyPart}
    (bl : BucketList DescBodyPart) (v : DescBodyPart) : Z :=
  sum_Z (snd <$> filter (fun p => fst p = v) bl).

(** A table with a zero weight and a repeated value. *)
Definition table_zero_repeat : BucketList string :=
  [("A"%string, 2); ("B"%string, 0); ("A"%string, 3); ("C"%string, 1)].

(** A random source whose next draw fails. *)
Definition failing (e : exn) : Random := {| Next := fun _ => Thrown e |}.

(** A table on which the running sum overflows. *)
Definition table_overflow : BucketList string :=
  [("A"%string, 2147483647); ("B"%string, 1)].

(** A table of positive weights on which the running sum wraps back to
    a positive [MaxWeight]. *)
Definition table_wrap_positive : BucketList string :=
  [("A"%string, 2147483647); ("B"%string, 2147483647); ("C"%string, 3)].

(** ** Facts on 32-bit integers *)

Module Int32Facts.

Import Int32.

Lemma wrap_InRange z : InRange (wrap z).
Proof.
  unfold InRange, wrap, MinValue, MaxValue, modulus.
  pose proof (Z.mod_pos_bound (z - -2147483648) 4294967296). lia.
Qed.

Lemma wrap_id z : InRange z -> wrap z = z.
Proof.
  unfold InRange, wrap, MinValue, MaxValue, modulus. intros Hz.
  rewrite Z.mod_small; lia.
Qed.

Lemma wrap_add_l a b : wrap (wrap a + b) = wrap (a + b).
Proof.
  unfold wrap, MinValue, modulus.
  replace ((a - -2147483648) `mod` 4294967296 + -2147483648 + b - -2147483648)
    with ((a - -2147483648) `mod` 4294967296 + b) by lia.
  replace (a + b - -2147483648) with ((a - -2147483648) + b) by lia.
  rewrite Zplus_mod_idemp_l. reflexivity.
Qed.

End Int32Facts.

Example convert_3_5_2 :
  Convert [("A"%string, 3); ("B"%string, 5); ("C"%string, 2)]
  = {| MaxWeight := 10;
       Items := [ {| CumulativeWeight := 3; Value := "A"%string |};
                  {| CumulativeWeight := 8; Value := "B"%string |};
                  {| CumulativeWeight := 10; Value := "C"%string |} ] |}.
Proof. reflexivity. Qed.

Example draw_3_5_2 :
  map (fun t => GetRandom 3
         (Convert [("A"%string, 3); ("B"%string, 5); ("C"%string, 2)])
         {| Next := fun _ => Returned t |}) [2; 3; 7; 8; 9]
  = map Returned ["A"; "B"; "B"; "C"; "C"]%string.
Proof. vm_compute. reflexivity. Qed.

(** A failure of the random source is the result of the call. *)
Example draw_failing_source :
  GetRandom 3 (Convert table_overflow) (failing ArgumentOutOfRangeException)
  = Thrown ArgumentOutOfRangeException.
Proof. reflexivity. Qed.

(** ** The binary search *)

Section Search.

Context {DescBodyPart : Type}.
Implicit Types (items : list (Entry DescBodyPart)) (st : Z * Z).

Lemma Array_get_Some {A} (a : list A) (i : Z) :
  0 <= i < Length a -> exists x, a !! Z.to_nat i = Some x /\ Array_get a i = Returned x.
Proof.
  unfold Length, Array_get. intros Hi.
  destruct (Z.ltb_spec i 0) as [Hneg|_]; [lia|].
  destruct (lookup_lt_is_Some_2 a (Z.to_nat i)) as [x Hx]; [lia|].
  exists x. rewrite Hx. auto.
Qed.

Lemma Array_get_Returned {A} (a : list A) (i : Z) (x : A) :
  Array_get a i = Returned x -> 0 <= i /\ a !! Z.to_nat i = Some x.
Proof.
  unfold Array_get. destruct (Z.ltb_spec i 0); [discriminate|].
  destruct (a !! Z.to_nat i) eqn:E; [|discriminate].
  intros [= ->]. auto.
Qed.

(** [mid] is computed without overflow when the two indices are
    non-negative [int]s. *)
Lemma mid_no_overflow (left right : Z) :
  0 <= left -> left < right -> right <= Int32.MaxValue ->
  Int32.add left (Int32.div (Int32.sub right left) 2)
  = left + (right - left) `div` 2.
Proof.
  intros H0 Hlt Hmax. unfold Int32.add, Int32.div, Int32.sub.
  unfold Int32.MaxValue in Hmax.
  rewrite (Int32Facts.wrap_id (right - left))
    by (unfold Int32.InRange, Int32.MinValue, Int32.MaxValue; lia).
  rewrite Z.quot_div_nonneg by lia.
  assert (0 <= (right - left) `div` 2 <= right - left)
    by (split; [apply Z.div_pos; lia | apply Z.div_le_upper_bound; lia]).
  rewrite (Int32Facts.wrap_id ((right - left) `div` 2))
    by (unfold Int32.InRange, Int32.MinValue, Int32.MaxValue; lia).
  apply Int32Facts.wrap_id.
  unfold Int32.InRange, Int32.MinValue, Int32.MaxValue; lia.
Qed.

Lemma mid_between (left right : Z) :
  left < right -> left <= left + (right - left) `div` 2 < right.
Proof.
  intros Hlt.
  assert (0 <= (right - left) `div` 2) by (apply Z.div_pos; lia).
  assert ((right - left) `div` 2 < right - left)
    by (apply Z.div_lt_upper_bound; lia).
  lia.
Qed.

(** One iteration, run from a state within bounds: the access at [mid]
    succeeds and the state moves as the comparison says. *)
Lemma loop_body_cases items target st :
  Length items <= Int32.MaxValue ->
  in_bounds items st -> fst st < snd st ->
  exists mid e,
    fst st <= mid < snd st /\
    items !! Z.to_nat mid = Some e /\
    loop_body items target st =
      Returned (if CumulativeWeight e <=? target
                then (mid + 1, snd st) else (fst st, mid)).
Proof.
  intros Hlen (H0 & Hle & Hr) Hlt.
  pose proof (mid_between _ _ Hlt) as Hmid.
  exists (fst st + (snd st - fst st) `div` 2).
  destruct (Array_get_Some items (fst st + (snd st - fst st) `div` 2))
    as (e & He & Hget); [lia|].
  exists e. split; [exact Hmid|]. split; [exact He|].
  unfold loop_body. cbv zeta.
  rewrite mid_no_overflow by lia.
  rewrite Hget. cbn.
  destruct (CumulativeWeight e <=? target); [|reflexivity].
  unfold Int32.add. rewrite Int32Facts.wrap_id; [reflexivity|].
  unfold Int32.InRange, Int32.MinValue. unfold Int32.MaxValue in *. lia.
Qed.

(** The rule of the loop: an invariant that implies the bounds and is
    kept by the two moves holds at the exit, where [left = right];
    fuel of at least the width is enough. *)
Lemma while_loop_rule items target (I : Z * Z -> Prop) :
  Length items <= Int32.MaxValue ->
  (forall st, I st -> in_bounds items st) ->
  (forall st mid e, I st -> fst st <= mid < snd st ->
     items !! Z.to_nat mid = Some e ->
     I (if CumulativeWeight e <=? target
        then (mid + 1, snd st) else (fst st, mid))) ->
  forall fuel st, I st -> width st <= Z.of_nat fuel ->
  exists st', while_loop fuel items target st = Returned st' /\
              I st' /\ fst st' = snd st'.
Proof.
  intros Hlen Hbounds Hkeep. induction fuel as [|fuel IH]; intros st HI Hw.
  - pose proof (Hbounds _ HI) as (H0 & Hle & Hr). unfold width in Hw.
    exists st. cbn. destruct (Z.ltb_spec (fst st) (snd st)); [lia|].
    repeat split; [exact HI | lia].
  - pose proof (Hbounds _ HI) as Hb. cbn.
    destruct (Z.ltb_spec (fst st) (snd st)) as [Hlt|Hge].
    + destruct (loop_body_cases items target st Hlen Hb Hlt)
        as (mid & e & Hmid & He & Hbody).
      rewrite Hbody. cbn.
      apply IH; [apply Hkeep; assumption|].
      unfold width in *.
      destruct (CumulativeWeight e <=? target); cbn; lia.
    + destruct Hb as (H0 & Hle & Hr).
      exists st. repeat split; [exact HI | lia].
Qed.

(** Each iteration makes the interval strictly narrower. *)
Lemma loop_body_narrows items target st :
  Length items <= Int32.MaxValue ->
  in_bounds items st -> fst st < snd st ->
  exists st', loop_body items target st = Returned st' /\
              in_bounds items st' /\ 0 <= width st' < width st.
Proof.
  intros Hlen Hb Hlt.
  destruct (loop_body_cases items target st Hlen Hb Hlt)
    as (mid & e & Hmid & He & Hbody).
  destruct Hb as (H0 & Hle & Hr).
  eexists. split; [exact Hbody|].
  unfold in_bounds, width.
  destruct (CumulativeWeight e <=? target); cbn; lia.
Qed.

Lemma initial_state_nonempty items :
  1 <= Length items <= Int32.MaxValue ->
  initial_state items = (0, Length items - 1).
Proof.
  intros H. unfold initial_state, Int32.sub. rewrite Int32Facts.wrap_id; [done|].
  unfold Int32.InRange, Int32.MinValue. unfold Int32.MaxValue in *. lia.
Qed.

(** The loop run from its initial state on a non-empty array. *)
Lemma while_loop_terminates items target fuel :
  1 <= Length items <= Int32.MaxValue ->
  Length items - 1 <= Z.of_nat fuel ->
  exists st', while_loop fuel items target (initial_state items) = Returned st' /\
              in_bounds items st' /\ fst st' = snd st'.
Proof.
  intros Hlen Hfuel. rewrite initial_state_nonempty by exact Hlen.
  apply (while_loop_rule items target (in_bounds items)).
  - lia.
  - auto.
  - intros st mid e (H0 & Hle & Hr) Hmid He. unfold in_bounds.
    destruct (CumulativeWeight e <=? target); cbn; lia.
  - unfold in_bounds; cbn; lia.
  - unfold width. cbn. lia.
Qed.

End Search.

(** ** The invariant of the data and what the search finds *)

Lemma strictly_increasing_lookup (cs : list Z) :
  strictly_increasing cs = true ->
  forall (i j : nat) (a b : Z),
    (i < j)%nat -> cs !! i = Some a -> cs !! j = Some b -> a < b.
Proof.
  induction cs as [|c1 tl IH]; intros Hs i j a b Hij Hi Hj.
  - discriminate.
  - destruct tl as [|c2 tl'].
    + destruct i; [|discriminate]. destruct j; [lia|discriminate].
    + cbn [strictly_increasing] in Hs. apply andb_prop in Hs as [H12 Hs].
      apply Z.ltb_lt in H12.
      destruct j as [|j']; [lia|]. cbn in Hj.
      destruct i as [|i'].
      * cbn in Hi. injection Hi as <-.
        destruct j' as [|j''].
        -- cbn in Hj. injection Hj as <-. exact H12.
        -- assert (c2 < b) by (apply (IH Hs 0%nat (S j'')); [lia|done|done]).
           lia.
      * cbn in Hi. apply (IH Hs i' j'); [lia|done|done].
Qed.

Section Leftmost.

Context {DescBodyPart : Type}.
Implicit Types (items : list (Entry DescBodyPart)) (data : Data DescBodyPart).

Lemma leftmost_greater_unique items target i i' :
  leftmost_greater items target i -> leftmost_greater items target i' ->
  i = i'.
Proof.
  intros [(e & He & Hgt) Hle] [(e' & He' & Hgt') Hle'].
  destruct (Nat.lt_trichotomy i i') as [H|[H|H]]; [|done|].
  - specialize (Hle' _ _ H He). lia.
  - specialize (Hle _ _ H He'). lia.
Qed.

Lemma cumulative_lookup items i e :
  items !! i = Some e ->
  cumulative_weights items !! i = Some (CumulativeWeight e).
Proof. intros H. unfold cumulative_weights. by rewrite list_lookup_fmap, H. Qed.

Lemma search_inv_kept items target st mid e :
  strictly_increasing (cumulative_weights items) = true ->
  search_inv items target st -> fst st <= mid < snd st ->
  items !! Z.to_nat mid = Some e ->
  search_inv items target
    (if CumulativeWeight e <=? target
     then (mid + 1, snd st) else (fst st, mid)).
Proof.
  intros Hs ((H0 & Hle & Hr) & Hleft & Hright) Hmid He.
  destruct (Z.leb_spec (CumulativeWeight e) target) as [Hc|Hc].
  - split; [unfold in_bounds; cbn; lia|]. split; [|exact Hright].
    cbn. intros j e' Hj He'.
    destruct (decide (j = Z.to_nat mid)) as [->|Hne].
    + rewrite He in He'. injection He' as <-. exact Hc.
    + assert (CumulativeWeight e' < CumulativeWeight e); [|lia].
      apply (strictly_increasing_lookup _ Hs j (Z.to_nat mid));
        [lia | by apply cumulative_lookup | by apply cumulative_lookup].
  - split; [unfold in_bounds; cbn; lia|]. split; [exact Hleft|].
    cbn. exists e. split; [exact He | lia].
Qed.

(** The search on an array whose last entry is above [target]. *)
Lemma search_leftmost items target fuel :
  Length items <= Int32.MaxValue ->
  strictly_increasing (cumulative_weights items) = true ->
  (exists c, last (cumulative_weights items) = Some c /\ target < c) ->
  (length items <= fuel)%nat ->
  exists i : nat,
    search fuel items target = Returned (Z.of_nat i) /\
    leftmost_greater items target i.
Proof.
  intros Hlen Hs (c & Hlast & Hc) Hfuel.
  assert (Hne : 1 <= Length items).
  { unfold Length. destruct items; [discriminate | cbn; lia]. }
  assert (Hinit : search_inv items target (0, Length items - 1)).
  { split; [unfold in_bounds; cbn; lia|]. split.
    - cbn. intros j e Hj. lia.
    - cbn. unfold cumulative_weights in Hlast.
      rewrite fmap_last in Hlast.
      destruct (last items) as [e|] eqn:El; [|discriminate].
      injection Hlast as <-. exists e. split; [|exact Hc].
      rewrite last_lookup in El. rewrite <- El. f_equal.
      unfold Length. lia. }
  destruct (while_loop_rule items target (search_inv items target) Hlen
              (fun st H => proj1 H)
              (fun st mid e H Hm He => search_inv_kept items target st mid e Hs H Hm He)
              fuel (0, Length items - 1) Hinit)
    as (st' & Hrun & Hinv & Heq).
  { unfold width, Length. cbn. lia. }
  destruct Hinv as ((H0 & _ & Hr) & Hleft & Hright).
  exists (Z.to_nat (fst st')). split.
  - unfold search. rewrite initial_state_nonempty by lia.
    rewrite Hrun. cbn. f_equal. lia.
  - split; [|exact Hleft]. by rewrite Heq.
Qed.

End Leftmost.

(** ** What the construction stores *)

Lemma sum_Z_cons (w : Z) (ws : list Z) : sum_Z (w :: ws) = w + sum_Z ws.
Proof. reflexivity. Qed.

Lemma sum_Z_nonneg (ws : list Z) :
  Forall (fun w => 0 < w) ws -> 0 <= sum_Z ws.
Proof. induction 1 as [|w ws Hw H IH]; [done|]. rewrite sum_Z_cons. lia. Qed.

Lemma sum_Z_positive (ws : list Z) :
  Forall (fun w => 0 < w) ws -> Z.of_nat (length ws) <= sum_Z ws.
Proof.
  induction 1 as [|w ws Hw H IH]; [done|].
  rewrite sum_Z_cons, length_cons. lia.
Qed.

Lemma sum_Z_take_le (ws : list Z) (n : nat) :
  Forall (fun w => 0 < w) ws -> 0 <= sum_Z (take n ws) <= sum_Z ws.
Proof.
  intros H. revert n. induction H as [|w ws Hw H IH]; intros n.
  - by rewrite take_nil.
  - destruct n as [|n'].
    + rewrite take_0, sum_Z_cons. pose proof (sum_Z_nonneg ws H).
      change (sum_Z []) with 0. lia.
    + rewrite firstn_cons, !sum_Z_cons. specialize (IH n'). lia.
Qed.

Section Construction.

Context {DescBodyPart : Type}.
Implicit Types (bl : BucketList DescBodyPart).

Lemma foreach_item_eq bl c l :
  foreach_item bl c l = (final_sum c bl, l ++ entries_from c bl).
Proof.
  revert c l. induction bl as [|[item p] rest IH]; intros c l; cbn.
  - by rewrite app_nil_r.
  - rewrite IH. by rewrite <- app_assoc.
Qed.

Lemma Convert_eq bl :
  Convert bl = {| MaxWeight := final_sum 0 bl; Items := entries_from 0 bl |}.
Proof. unfold Convert. by rewrite foreach_item_eq. Qed.

Lemma entries_from_length c bl : length (entries_from c bl) = length bl.
Proof.
  revert c. induction bl as [|[item p] rest IH]; intros c; cbn; [done|].
  by rewrite IH.
Qed.

Lemma entries_from_values c bl : Value <$> entries_from c bl = fst <$> bl.
Proof.
  revert c. induction bl as [|[item p] rest IH]; intros c; cbn; [done|].
  by rewrite IH.
Qed.

Lemma entries_from_lookup c bl i item w :
  bl !! i = Some (item, w) ->
  entries_from c bl !! i
  = Some {| CumulativeWeight := Int32.wrap (c + sum_Z (take (S i) (weights bl)));
            Value := item |}.
Proof.
  revert c i. induction bl as [|[item' p] rest IH]; intros c i Hi; [done|].
  destruct i as [|i'].
  - cbn in Hi. injection Hi as -> ->.
    cbn [entries_from lookup list_lookup weights fmap list_fmap snd take sum_Z foldr].
    unfold Int32.add. by rewrite Z.add_0_r.
  - cbn in Hi.
    cbn [entries_from lookup list_lookup weights fmap list_fmap snd take sum_Z foldr].
    rewrite (IH _ _ Hi). unfold Int32.add. rewrite Int32Facts.wrap_add_l.
    by rewrite Z.add_assoc.
Qed.

Lemma final_sum_wrap c bl :
  Int32.InRange c -> final_sum c bl = Int32.wrap (c + sum_Z (weights bl)).
Proof.
  revert c. induction bl as [|[item p] rest IH]; intros c Hc;
    cbn [final_sum weights fmap list_fmap snd sum_Z foldr].
  - rewrite Z.add_0_r. by rewrite Int32Facts.wrap_id.
  - rewrite IH by apply Int32Facts.wrap_InRange.
    unfold Int32.add. rewrite Int32Facts.wrap_add_l. by rewrite Z.add_assoc.
Qed.

Lemma zero_InRange : Int32.InRange 0.
Proof. unfold Int32.InRange, Int32.MinValue, Int32.MaxValue. lia. Qed.

(** Without overflow: positive weights whose sum, added to a
    non-negative start, stays an [int]. *)
Lemma entries_from_no_overflow c bl :
  0 <= c -> Forall (fun w => 0 < w) (weights bl) ->
  c + sum_Z (weights bl) <= Int32.MaxValue ->
  final_sum c bl = c + sum_Z (weights bl) /\
  strictly_increasing (c :: cumulative_weights (entries_from c bl)) = true /\
  last (c :: cumulative_weights (entries_from c bl)) = Some (final_sum c bl).
Proof.
  revert c. induction bl as [|[item p] rest IH]; intros c Hc Hpos Hsum.
  - cbn. split; [lia|done].
  - unfold weights in Hpos, Hsum. rewrite fmap_cons in Hpos, Hsum.
    rewrite sum_Z_cons in Hsum. cbn [snd] in Hpos, Hsum.
    apply Forall_cons in Hpos as [Hp Hpos].
    assert (0 <= sum_Z (snd <$> rest)) by by apply sum_Z_nonneg.
    assert (Hadd : Int32.add c p = c + p).
    { unfold Int32.add. apply Int32Facts.wrap_id.
      unfold Int32.InRange, Int32.MinValue. unfold Int32.MaxValue in *. lia. }
    cbn [final_sum entries_from]. rewrite Hadd.
    destruct (IH (c + p)) as (Hf & Hs & Hl); [lia|done|unfold weights; lia|].
    split; [unfold weights in *; rewrite fmap_cons, sum_Z_cons; cbn [snd]; lia|]. split.
    + cbn [cumulative_weights fmap list_fmap CumulativeWeight strictly_increasing].
      apply andb_true_intro. split; [apply Z.ltb_lt; lia|]. exact Hs.
    + exact Hl.
Qed.

(** The constructed data satisfies the invariant when nothing
    overflows. *)
Lemma Convert_Invariant bl :
  bl <> [] -> Forall (fun w => 0 < w) (weights bl) ->
  sum_Z (weights bl) <= Int32.MaxValue ->
  Invariant (Convert bl) /\ MaxWeight (Convert bl) = sum_Z (weights bl) /\
  Length (Items (Convert bl)) <= Int32.MaxValue.
Proof.
  intros Hne Hpos Hsum. rewrite Convert_eq. cbn [MaxWeight Items].
  destruct (entries_from_no_overflow 0 bl) as (Hf & Hs & Hl); [lia|done|lia|].
  destruct bl as [|[item p] rest]; [done|].
  split; [|split].
  - split; [done|]. split.
    + cbn [entries_from cumulative_weights fmap list_fmap] in Hs |- *.
      change (strictly_increasing (0 :: ?a :: ?l))
        with ((0 <? a) && strictly_increasing (a :: l)) in Hs.
      by apply andb_prop in Hs as [_ Hs].
    + exact Hl.
  - rewrite Hf. lia.
  - unfold Length. rewrite entries_from_length.
    pose proof (sum_Z_positive _ Hpos) as Hlen.
    unfold weights in Hlen, Hsum. rewrite length_fmap in Hlen. lia.
Qed.

End Construction.

(** ** Prefix sums and the entry a target selects *)

Lemma sum_Z_take_S (ws : list Z) (i : nat) (w : Z) :
  ws !! i = Some w -> sum_Z (take (S i) ws) = sum_Z (take i ws) + w.
Proof.
  revert i. induction ws as [|w' ws IH]; intros i Hi; [done|].
  destruct i as [|i'].
  - cbn in Hi. injection Hi as ->. rewrite firstn_cons, !take_0, sum_Z_cons.
    change (sum_Z []) with 0. lia.
  - cbn in Hi. rewrite (firstn_cons (S i')), (firstn_cons i'), !sum_Z_cons.
    rewrite (IH _ Hi). lia.
Qed.

Lemma sum_Z_take_mono (ws : list Z) (j i : nat) :
  Forall (fun w => 0 < w) ws -> (j <= i)%nat ->
  sum_Z (take j ws) <= sum_Z (take i ws).
Proof.
  intros Hpos Hji.
  replace (take j ws) with (take j (take i ws))
    by (rewrite take_take; f_equal; lia).
  apply sum_Z_take_le. by apply Forall_take.
Qed.

Section Selection.

Context {DescBodyPart : Type}.
Implicit Types (bl : BucketList DescBodyPart).

Lemma Convert_lookup_no_overflow bl i item w :
  representable bl -> bl !! i = Some (item, w) ->
  Items (Convert bl) !! i
  = Some {| CumulativeWeight := sum_Z (take (S i) (weights bl));
            Value := item |}.
Proof.
  intros (Hne & Hpos & Hsum) Hi. rewrite Convert_eq. cbn [Items].
  rewrite (entries_from_lookup 0 bl i item w Hi). rewrite Z.add_0_l.
  rewrite Int32Facts.wrap_id; [done|].
  pose proof (sum_Z_take_le (weights bl) (S i) Hpos).
  unfold Int32.InRange, Int32.MinValue. unfold Int32.MaxValue in *. lia.
Qed.

Lemma Convert_length bl : length (Items (Convert bl)) = length bl.
Proof. rewrite Convert_eq. apply entries_from_length. Qed.

Lemma lookup_weights bl i item w :
  bl !! i = Some (item, w) -> weights bl !! i = Some w.
Proof. intros H. unfold weights. by rewrite list_lookup_fmap, H. Qed.

(** The targets between two consecutive prefix sums select the entry
    between them. *)
Lemma leftmost_of_prefix bl target i :
  representable bl -> (i < length bl)%nat ->
  sum_Z (take i (weights bl)) <= target < sum_Z (take (S i) (weights bl)) ->
  leftmost_greater (Items (Convert bl)) target i.
Proof.
  intros Hrep Hi Ht.
  destruct (lookup_lt_is_Some_2 bl i Hi) as ([item w] & Hbl).
  split.
  - eexists. split; [by apply (Convert_lookup_no_overflow bl i item w)|].
    cbn. lia.
  - intros j e Hj He.
    destruct (lookup_lt_is_Some_2 bl j) as ([item' w'] & Hbl'); [lia|].
    rewrite (Convert_lookup_no_overflow bl j item' w' Hrep Hbl') in He.
    injection He as <-. cbn.
    destruct Hrep as (_ & Hpos & _).
    pose proof (sum_Z_take_mono (weights bl) (S j) i Hpos). lia.
Qed.

(** On a representable table the search finds, for each target below
    the total, the leftmost entry above it. *)
Lemma search_no_overflow bl target fuel :
  representable bl -> target < sum_Z (weights bl) ->
  (length bl <= fuel)%nat ->
  exists i : nat,
    search fuel (Items (Convert bl)) target = Returned (Z.of_nat i) /\
    leftmost_greater (Items (Convert bl)) target i.
Proof.
  intros (Hne & Hpos & Hsum) Ht Hfuel.
  destruct (Convert_Invariant bl Hne Hpos Hsum) as ((_ & Hs & Hl) & HM & HL).
  apply search_leftmost; [exact HL | exact Hs | | by rewrite Convert_length].
  exists (MaxWeight (Convert bl)). split; [exact Hl | lia].
Qed.

Lemma search_selects_iff bl target fuel i :
  representable bl -> 0 <= target < sum_Z (weights bl) ->
  (length bl <= fuel)%nat -> (i < length bl)%nat ->
  search fuel (Items (Convert bl)) target = Returned (Z.of_nat i)
  <-> sum_Z (take i (weights bl)) <= target < sum_Z (take (S i) (weights bl)).
Proof.
  intros Hrep Ht Hfuel Hi.
  destruct (search_no_overflow bl target fuel Hrep (proj2 Ht) Hfuel)
    as (k & Hsearch & Hk).
  split.
  - intros Hs. rewrite Hsearch in Hs. injection Hs as Hs.
    apply Nat2Z.inj in Hs. subst k.
    destruct Hk as ((e & He & Hgt) & Hle).
    destruct (lookup_lt_is_Some_2 bl i Hi) as ([item w] & Hbl).
    rewrite (Convert_lookup_no_overflow bl i item w Hrep Hbl) in He.
    injection He as <-. cbn in Hgt. split; [|exact Hgt].
    destruct i as [|i']; [rewrite take_0; change (sum_Z []) with 0; lia|].
    destruct (lookup_lt_is_Some_2 bl i') as ([item' w'] & Hbl'); [lia|].
    apply (Hle i' _ (Nat.lt_succ_diag_r i')
             (Convert_lookup_no_overflow bl i' item' w' Hrep Hbl')).
  - intros Hp. rewrite Hsearch. do 2 f_equal.
    apply (leftmost_greater_unique (Items (Convert bl)) target);
      [exact Hk | by apply leftmost_of_prefix].
Qed.

(** From the index the search ends at to the value [GetRandom]
    returns. *)
Lemma GetRandom_of_search (data : Data DescBodyPart) r target fuel i e :
  Next r (MaxWeight data) = Returned target ->
  search fuel (Items data) target = Returned (Z.of_nat i) ->
  Items data !! i = Some e ->
  GetRandom fuel data r = Returned (Value e).
Proof.
  intros Hnext Hsearch He. unfold GetRandom.
  rewrite Hnext. cbn [mbind result_bind]. rewrite Hsearch. cbn [mbind result_bind].
  unfold Array_get. destruct (Z.ltb_spec (Z.of_nat i) 0); [lia|].
  rewrite Nat2Z.id, He. reflexivity.
Qed.

End Selection.

(** ** Counting the elements of an interval *)

Section Counting.

Context (P : Z -> Prop) `{!forall t, Decision (P t)}.

Lemma length_filter_none (l : list Z) :
  Forall (fun t => ~ P t) l -> length (filter P l) = 0%nat.
Proof.
  induction 1 as [|t l Ht Hl IH]; [done|].
  by rewrite filter_cons_False.
Qed.

Lemma length_filter_all (l : list Z) :
  Forall P l -> length (filter P l) = length l.
Proof.
  induction 1 as [|t l Ht Hl IH]; [done|].
  rewrite filter_cons_True by done. cbn. by rewrite IH.
Qed.

(** If, among the integers of [[0, n)], [P] holds exactly on
    [[a, b)], it holds of [b - a] of them. *)
Lemma length_filter_interval (a b n : Z) :
  0 <= a -> a <= b -> b <= n ->
  (forall t, 0 <= t < n -> P t <-> a <= t < b) ->
  length (filter P (seqZ 0 n)) = Z.to_nat (b - a).
Proof.
  intros Ha Hab Hbn HP.
  replace n with (a + ((b - a) + (n - b))) by lia.
  rewrite seqZ_app by lia. rewrite seqZ_app by lia.
  rewrite !filter_app, !length_app.
  rewrite length_filter_none, length_filter_all, length_filter_none.
  - rewrite length_seqZ. lia.
  - apply Forall_seqZ. intros t Ht. rewrite HP; lia.
  - apply Forall_seqZ. intros t Ht. rewrite HP; lia.
  - apply Forall_seqZ. intros t Ht. rewrite HP; lia.
Qed.

End Counting.

(** ** The registry is the raw table mapped through [Convert] *)

Lemma InitializeDescBodyParts_fmap {DescBodyPart : Type}
    (tempDict : gmap string (BucketList DescBodyPart)) :
  InitializeDescBodyParts tempDict = Convert <$> tempDict.
Proof.
  unfold InitializeDescBodyParts.
  apply (map_fold_weak_ind (fun result_ m => result_ = Convert <$> m)).
  - by rewrite fmap_empty.
  - intros key bl m result_ Hfresh ->. by rewrite fmap_insert.
Qed.

(** * The claims *)

(** ** The search of [GetRandom] *)

(** C10: for every [Items] array of length at least 1 (and at most
    [Int32.MaxValue], as the length of an array is) and every target,
    the loop of [GetRandom] terminates: it is entered in a state within
    bounds, every iteration run from such a state with [left < right]
    keeps the bounds and makes [right - left] strictly smaller, and with
    fuel of at least [Length - 1] the loop exits with [left = right]. *)
Theorem C10_loop_terminates {DescBodyPart : Type}
    (items : list (Entry DescBodyPart)) (target : Z) :
  1 <= Length items <= Int32.MaxValue ->
  in_bounds items (initial_state items) /\
  (forall st, in_bounds items st -> fst st < snd st ->
     exists st', loop_body items target st = Returned st' /\
                 in_bounds items st' /\ 0 <= width st' < width st) /\
  (forall fuel : nat, Length items - 1 <= Z.of_nat fuel ->
     exists st', while_loop fuel items target (initial_state items) = Returned st' /\
                 fst st' = snd st').
Proof.
  intros Hlen. split; [|split].
  - rewrite initial_state_nonempty by exact Hlen. unfold in_bounds; cbn; lia.
  - intros st Hb Hlt. apply loop_body_narrows; [lia|done|done].
  - intros fuel Hfuel.
    destruct (while_loop_terminates items target fuel Hlen Hfuel)
      as (st' & Hrun & _ & Heq).
    exists st'. auto.
Qed.

Lemma C10_loop_terminates_witness :
  1 <= Length (Items data_3_5_2) <= Int32.MaxValue /\
  exists st', while_loop 2 (Items data_3_5_2) 7 (initial_state (Items data_3_5_2))
              = Returned st' /\ fst st' = snd st'.
Proof.
  assert (H : 1 <= Length (Items data_3_5_2) <= Int32.MaxValue)
    by (vm_compute; split; discriminate).
  split; [exact H|].
  apply (proj2 (proj2 (C10_loop_terminates (Items data_3_5_2) 7 H)) 2%nat).
  vm_compute. discriminate.
Defined.

(** C1: if [Items] is non-empty with strictly increasing cumulative
    weights the last of which is [MaxWeight], and the random source
    draws a target in [[0, MaxWeight)], then the search of [GetRandom]
    stops at an index [i] inside the array, entry [i] is the leftmost one
    whose cumulative weight is strictly greater than the target, and
    [GetRandom] returns the value of that entry. *)
Theorem C1_GetRandom_leftmost {DescBodyPart : Type}
    (data : Data DescBodyPart) (r : Random) (target : Z) (fuel : nat) :
  Length (Items data) <= Int32.MaxValue ->
  Invariant data ->
  Next r (MaxWeight data) = Returned target ->
  0 <= target < MaxWeight data ->
  (length (Items data) <= fuel)%nat ->
  exists (i : nat) (e : Entry DescBodyPart),
    search fuel (Items data) target = Returned (Z.of_nat i) /\
    (i < length (Items data))%nat /\
    Items data !! i = Some e /\
    target < CumulativeWeight e /\
    (forall j e', (j < i)%nat -> Items data !! j = Some e' ->
                  CumulativeWeight e' <= target) /\
    GetRandom fuel data r = Returned (Value e).
Proof.
  intros Hlen (Hne & Hs & Hlast) Hnext Ht Hfuel.
  destruct (search_leftmost (Items data) target fuel Hlen Hs) as (i & Hsearch & Hleft);
    [exists (MaxWeight data); split; [exact Hlast | lia] | exact Hfuel |].
  destruct Hleft as ((e & He & Hgt) & Hle).
  exists i, e. split; [exact Hsearch|].
  split; [by apply lookup_lt_Some in He|].
  split; [exact He|]. split; [exact Hgt|]. split; [exact Hle|].
  unfold GetRandom. rewrite Hnext. cbn. rewrite Hsearch. cbn.
  unfold Array_get. destruct (Z.ltb_spec (Z.of_nat i) 0); [lia|].
  rewrite Nat2Z.id, He. reflexivity.
Qed.

Lemma C1_GetRandom_leftmost_witness :
  Invariant data_3_5_2 /\
  exists (i : nat) (e : Entry string),
    search 3 (Items data_3_5_2) 3 = Returned (Z.of_nat i) /\
    (i < length (Items data_3_5_2))%nat /\
    Items data_3_5_2 !! i = Some e /\
    3 < CumulativeWeight e /\
    (forall j e', (j < i)%nat -> Items data_3_5_2 !! j = Some e' ->
                  CumulativeWeight e' <= 3) /\
    GetRandom 3 data_3_5_2 (returning 3) = Returned (Value e).
Proof.
  assert (Hinv : Invariant data_3_5_2).
  { split; [discriminate|]. split; reflexivity. }
  split; [exact Hinv|].
  apply (C1_GetRandom_leftmost data_3_5_2 (returning 3) 3 3).
  - vm_compute. discriminate.
  - exact Hinv.
  - reflexivity.
  - cbn. lia.
  - cbn. lia.
Defined.

(** C6: on the data constructed from a non-empty table, [GetRandom]
    fails only if the random source does.  Whatever target the source
    returns (in particular every target in [[0, MaxWeight)]), the search
    ends at an index inside the array without an out-of-bounds access
    (such an access would make the result [Thrown
    IndexOutOfRangeException]) and a value of the array is returned; an
    exception of the source is the result of [GetRandom] unchanged. *)
Theorem C6_GetRandom_cannot_fail {DescBodyPart : Type}
    (bl : BucketList DescBodyPart) (r : Random) (fuel : nat) :
  bl <> [] ->
  Length bl <= Int32.MaxValue ->
  (length bl <= fuel)%nat ->
  (forall target, Next r (MaxWeight (Convert bl)) = Returned target ->
     exists (i : Z) (e : Entry DescBodyPart),
       search fuel (Items (Convert bl)) target = Returned i /\
       0 <= i < Length (Items (Convert bl)) /\
       Array_get (Items (Convert bl)) i = Returned e /\
       GetRandom fuel (Convert bl) r = Returned (Value e)) /\
  (forall e, Next r (MaxWeight (Convert bl)) = Thrown e ->
     GetRandom fuel (Convert bl) r = Thrown e).
Proof.
  intros Hne Hlen Hfuel.
  assert (Hlen' : length (Items (Convert bl)) = length bl)
    by (rewrite Convert_eq; apply entries_from_length).
  assert (HL : 1 <= Length (Items (Convert bl)) <= Int32.MaxValue).
  { unfold Length in *. rewrite Hlen'. destruct bl; [done|]. cbn in *. lia. }
  split.
  - intros target Hnext.
    destruct (while_loop_terminates (Items (Convert bl)) target fuel HL)
      as (st' & Hrun & Hb & Heq).
    { unfold Length in *. lia. }
    destruct Hb as (H0 & Hle & Hr).
    destruct (Array_get_Some (Items (Convert bl)) (fst st')) as (e & He & Hget);
      [lia|].
    exists (fst st'), e.
    assert (Hsearch : search fuel (Items (Convert bl)) target = Returned (fst st'))
      by (unfold search; rewrite Hrun; reflexivity).
    split; [exact Hsearch|]. split; [lia|]. split; [exact Hget|].
    unfold GetRandom. rewrite Hnext. cbn. rewrite Hsearch. cbn.
    rewrite Hget. reflexivity.
  - intros e Hnext. unfold GetRandom. rewrite Hnext. reflexivity.
Qed.

Lemma C6_GetRandom_cannot_fail_witness :
  (forall target, Next (returning 7) (MaxWeight (Convert table_3_5_2)) = Returned target ->
     exists (i : Z) (e : Entry string),
       search 3 (Items (Convert table_3_5_2)) target = Returned i /\
       0 <= i < Length (Items (Convert table_3_5_2)) /\
       Array_get (Items (Convert table_3_5_2)) i = Returned e /\
       GetRandom 3 (Convert table_3_5_2) (returning 7) = Returned (Value e)) /\
  (forall e, Next (returning 7) (MaxWeight (Convert table_3_5_2)) = Thrown e ->
     GetRandom 3 (Convert table_3_5_2) (returning 7) = Thrown e).
Proof.
  apply (C6_GetRandom_cannot_fail table_3_5_2 (returning 7) 3).
  - discriminate.
  - vm_compute. discriminate.
  - cbn. lia.
Defined.

(** C9: the construction accepts the empty sequence and yields
    [MaxWeight = 0] with an empty [Items]; on that data every call of
    [GetRandom] in which the random source returns a target leaves the
    loop at once with [left = 0], reads index 0 of the empty array and
    fails with [IndexOutOfRangeException]; no call returns a value. *)
Theorem C9_empty_table_fails_at_draw {DescBodyPart : Type} (r : Random) (fuel : nat) :
  Convert ([] : BucketList DescBodyPart) = {| MaxWeight := 0; Items := [] |} /\
  (forall target, Next r 0 = Returned target ->
     search fuel (Items (Convert ([] : BucketList DescBodyPart))) target = Returned 0 /\
     Array_get (Items (Convert ([] : BucketList DescBodyPart))) 0
       = Thrown IndexOutOfRangeException /\
     GetRandom fuel (Convert ([] : BucketList DescBodyPart)) r
       = Thrown IndexOutOfRangeException) /\
  (forall v, GetRandom fuel (Convert ([] : BucketList DescBodyPart)) r <> Returned v).
Proof.
  split; [reflexivity|].
  assert (Hsearch : forall target,
            search fuel (Items (Convert ([] : BucketList DescBodyPart))) target
            = Returned 0).
  { intros target. destruct fuel; reflexivity. }
  split.
  - intros target Hnext. split; [apply Hsearch|]. split; [reflexivity|].
    unfold GetRandom. change (MaxWeight (Convert [])) with 0.
    rewrite Hnext. cbn [mbind result_bind]. rewrite Hsearch. reflexivity.
  - intros v. unfold GetRandom. change (MaxWeight (Convert [])) with 0.
    destruct (Next r 0) as [target| |]; cbn [mbind result_bind];
      [rewrite Hsearch|..]; discriminate.
Qed.

Lemma C9_empty_table_fails_at_draw_witness :
  Next (returning 0) 0 = Returned 0 /\
  GetRandom 0 (Convert ([] : BucketList string)) (returning 0)
  = Thrown IndexOutOfRangeException.
Proof.
  split; [reflexivity|].
  apply (proj1 (proj2 (C9_empty_table_fails_at_draw (DescBodyPart := string)
                         (returning 0) 0)) 0).
  reflexivity.
Defined.

(** ** The construction *)

(** C3, as the claim states it, fails: the construction returns a
    structure for the empty sequence, for a zero weight and for a
    negative weight, where the claim has it fail. *)
Lemma C3_counterexample :
  Convert ([] : BucketList string) = {| MaxWeight := 0; Items := [] |} /\
  Convert [("A"%string, 0)]
  = {| MaxWeight := 0;
       Items := [ {| CumulativeWeight := 0; Value := "A"%string |} ] |} /\
  Convert [("A"%string, -5); ("B"%string, 3)]
  = {| MaxWeight := -2;
       Items := [ {| CumulativeWeight := -5; Value := "A"%string |};
                  {| CumulativeWeight := -2; Value := "B"%string |} ] |}.
Proof. repeat split; reflexivity. Qed.

(** C3 (amended): the construction validates nothing and cannot fail:
    for every input sequence, the empty one and those with weights [<= 0]
    included, it returns a structure with exactly one entry per input
    pair, holding the values in input order; no pair is dropped. *)
Theorem C3_construction_accepts_every_input {DescBodyPart : Type}
    (bl : BucketList DescBodyPart) :
  length (Items (Convert bl)) = length bl /\
  Value <$> Items (Convert bl) = fst <$> bl.
Proof.
  rewrite Convert_eq. cbn [Items].
  split; [apply entries_from_length | apply entries_from_values].
Qed.

(** C4, as the claim states it, fails: when the running sum passes
    [Int32.MaxValue] the construction returns, with the wrapped sum
    stored. *)
Lemma C4_counterexample :
  Int32.MaxValue < sum_Z (weights table_overflow) /\
  Convert table_overflow
  = {| MaxWeight := -2147483648;
       Items := [ {| CumulativeWeight := 2147483647; Value := "A"%string |};
                  {| CumulativeWeight := -2147483648; Value := "B"%string |} ] |}.
Proof. split; reflexivity. Qed.

(** C4 (amended): the construction does not detect overflow.  For every
    input it returns, the cumulative weight of entry [i] is the sum of
    the first [i + 1] weights wrapped to 32 bits, and [MaxWeight] is the
    wrapped sum of all weights. *)
Theorem C4_running_sum_wraps {DescBodyPart : Type} (bl : BucketList DescBodyPart) :
  MaxWeight (Convert bl) = Int32.wrap (sum_Z (weights bl)) /\
  forall i item w, bl !! i = Some (item, w) ->
    Items (Convert bl) !! i
    = Some {| CumulativeWeight := Int32.wrap (sum_Z (take (S i) (weights bl)));
              Value := item |}.
Proof.
  rewrite Convert_eq. cbn [MaxWeight Items]. split.
  - by rewrite final_sum_wrap by apply zero_InRange.
  - intros i item w Hi. by rewrite (entries_from_lookup 0 bl i item w Hi).
Qed.

Lemma C4_running_sum_wraps_witness :
  table_overflow !! 1%nat = Some ("B"%string, 1) /\
  Items (Convert table_overflow) !! 1%nat
  = Some {| CumulativeWeight := Int32.wrap (sum_Z (take 2 (weights table_overflow)));
            Value := "B"%string |}.
Proof.
  split; [reflexivity|].
  apply (proj2 (C4_running_sum_wraps table_overflow) 1%nat "B"%string 1).
  reflexivity.
Defined.

(** C5, as the claim states it, fails: on a non-empty table of positive
    weights whose sum passes [Int32.MaxValue], the second cumulative
    weight is not the sum of the first two weights, the cumulative
    weights are not increasing, and [MaxWeight] is negative. *)
Lemma C5_counterexample :
  table_overflow <> [] /\
  Forall (fun w => 0 < w) (weights table_overflow) /\
  sum_Z (take 2 (weights table_overflow)) = 2147483648 /\
  cumulative_weights (Items (Convert table_overflow))
  = [2147483647; -2147483648] /\
  strictly_increasing (cumulative_weights (Items (Convert table_overflow)))
  = false /\
  MaxWeight (Convert table_overflow) = -2147483648.
Proof.
  split; [discriminate|]. split; [repeat constructor|].
  repeat split; reflexivity.
Qed.

(** C5 (amended): for every non-empty input sequence with all weights
    positive and a sum of weights of at most [Int32.MaxValue], the
    constructed structure has one entry per input pair in input order,
    the cumulative weight of entry [i] is the sum of the first [i + 1]
    weights, the cumulative weights are strictly increasing, [Items] is
    non-empty, and the last cumulative weight is [MaxWeight], the sum of
    all weights. *)
Theorem C5_construction_invariant {DescBodyPart : Type}
    (bl : BucketList DescBodyPart) :
  bl <> [] ->
  Forall (fun w => 0 < w) (weights bl) ->
  sum_Z (weights bl) <= Int32.MaxValue ->
  length (Items (Convert bl)) = length bl /\
  (forall i item w, bl !! i = Some (item, w) ->
     Items (Convert bl) !! i
     = Some {| CumulativeWeight := sum_Z (take (S i) (weights bl));
               Value := item |}) /\
  strictly_increasing (cumulative_weights (Items (Convert bl))) = true /\
  Items (Convert bl) <> [] /\
  last (cumulative_weights (Items (Convert bl))) = Some (MaxWeight (Convert bl)) /\
  MaxWeight (Convert bl) = sum_Z (weights bl).
Proof.
  intros Hne Hpos Hsum.
  destruct (Convert_Invariant bl Hne Hpos Hsum) as ((Hne' & Hs & Hl) & HM & _).
  split; [apply Convert_length|]. split; [|done].
  intros i item w Hi. by apply (Convert_lookup_no_overflow bl i item w).
Qed.

Lemma C5_construction_invariant_witness :
  length (Items (Convert table_3_5_2)) = length table_3_5_2 /\
  (forall i item w, table_3_5_2 !! i = Some (item, w) ->
     Items (Convert table_3_5_2) !! i
     = Some {| CumulativeWeight := sum_Z (take (S i) (weights table_3_5_2));
               Value := item |}) /\
  strictly_increasing (cumulative_weights (Items (Convert table_3_5_2))) = true /\
  Items (Convert table_3_5_2) <> [] /\
  last (cumulative_weights (Items (Convert table_3_5_2)))
  = Some (MaxWeight (Convert table_3_5_2)) /\
  MaxWeight (Convert table_3_5_2) = sum_Z (weights table_3_5_2).
Proof.
  apply (C5_construction_invariant table_3_5_2).
  - discriminate.
  - repeat constructor.
  - vm_compute. discriminate.
Defined.

(** ** First and last value *)

(** C7, as the claim states it, fails: on a non-empty table of positive
    weights whose running sum wraps, a random source returning 0 makes
    [GetRandom] return the last value, not the first. *)
Lemma C7_counterexample :
  Forall (fun w => 0 < w) (weights table_wrap_positive) /\
  Convert table_wrap_positive
  = {| MaxWeight := 1;
       Items := [ {| CumulativeWeight := 2147483647; Value := "A"%string |};
                  {| CumulativeWeight := -2; Value := "B"%string |};
                  {| CumulativeWeight := 1; Value := "C"%string |} ] |} /\
  GetRandom 3 (Convert table_wrap_positive) (returning 0) = Returned "C"%string.
Proof. split; [repeat constructor|]. split; reflexivity. Qed.

(** C7 (amended): for every non-empty table of positive weights whose
    sum is at most [Int32.MaxValue], [GetRandom] with a random source
    returning 0 returns the first value of the table, and with a source
    returning [MaxWeight - 1] it returns the last value. *)
Theorem C7_first_and_last {DescBodyPart : Type}
    (bl : BucketList DescBodyPart) (fuel : nat)
    (first_value last_value : DescBodyPart) :
  bl <> [] ->
  Forall (fun w => 0 < w) (weights bl) ->
  sum_Z (weights bl) <= Int32.MaxValue ->
  (length bl <= fuel)%nat ->
  fst <$> head bl = Some first_value ->
  fst <$> last bl = Some last_value ->
  (forall r, Next r (MaxWeight (Convert bl)) = Returned 0 ->
     GetRandom fuel (Convert bl) r = Returned first_value) /\
  (forall r, Next r (MaxWeight (Convert bl)) = Returned (MaxWeight (Convert bl) - 1) ->
     GetRandom fuel (Convert bl) r = Returned last_value).
Proof.
  intros Hne Hpos Hsum Hfuel Hfirst Hlast.
  assert (Hrep : representable bl) by done.
  destruct (Convert_Invariant bl Hne Hpos Hsum) as (_ & HM & _).
  assert (Hlen : (0 < length bl)%nat) by (destruct bl; [done | cbn; lia]).
  split; intros r Hnext.
  - destruct (head bl) as [[item w]|] eqn:Hh; [|done].
    injection Hfirst as <-. rewrite head_lookup in Hh.
    pose proof (sum_Z_take_S _ _ _ (lookup_weights bl 0 item w Hh)) as HS.
    rewrite take_0 in HS. change (sum_Z []) with 0 in HS.
    assert (Hw : 0 < w).
    { rewrite Forall_lookup in Hpos. apply (Hpos 0%nat). by apply (lookup_weights bl 0 item). }
    assert (Htot : sum_Z (take 1 (weights bl)) <= sum_Z (weights bl))
      by apply (sum_Z_take_le _ 1 Hpos).
    apply (GetRandom_of_search (Convert bl) r 0 fuel 0
             {| CumulativeWeight := sum_Z (take 1 (weights bl)); Value := item |});
      [exact Hnext | | by apply (Convert_lookup_no_overflow bl 0 item w)].
    apply (search_selects_iff bl 0 fuel 0 Hrep); [lia | exact Hfuel | exact Hlen |].
    rewrite take_0. change (sum_Z []) with 0. lia.
  - destruct (last bl) as [[item w]|] eqn:Hl; [|done].
    injection Hlast as <-. rewrite last_lookup in Hl.
    set (n := pred (length bl)) in *.
    pose proof (sum_Z_take_S _ _ _ (lookup_weights bl n item w Hl)) as HS.
    assert (Hw : 0 < w).
    { rewrite Forall_lookup in Hpos. apply (Hpos n). by apply (lookup_weights bl n item). }
    assert (Hall : take (S n) (weights bl) = weights bl).
    { apply take_ge. unfold weights. rewrite length_fmap. lia. }
    rewrite Hall in HS.
    pose proof (sum_Z_take_le (weights bl) n Hpos) as Hn.
    rewrite HM in Hnext.
    apply (GetRandom_of_search (Convert bl) r (sum_Z (weights bl) - 1) fuel n
             {| CumulativeWeight := sum_Z (take (S n) (weights bl)); Value := item |});
      [by rewrite HM | | by apply (Convert_lookup_no_overflow bl n item w)].
    apply (search_selects_iff bl _ fuel n Hrep); [lia | exact Hfuel | lia |].
    rewrite Hall. lia.
Qed.

Lemma C7_first_and_last_witness :
  (forall r, Next r (MaxWeight (Convert table_3_5_2)) = Returned 0 ->
     GetRandom 3 (Convert table_3_5_2) r = Returned "A"%string) /\
  (forall r, Next r (MaxWeight (Convert table_3_5_2))
             = Returned (MaxWeight (Convert table_3_5_2) - 1) ->
     GetRandom 3 (Convert table_3_5_2) r = Returned "C"%string).
Proof.
  apply (C7_first_and_last table_3_5_2 3 "A"%string "C"%string).
  - discriminate.
  - repeat constructor.
  - vm_compute. discriminate.
  - cbn. lia.
  - reflexivity.
  - reflexivity.
Defined.

(** ** How many targets select an entry *)

(** C2, as the claim states it, fails: on a non-empty table of positive
    weights whose running sum wraps, [MaxWeight] is 1, the only target
    is 0, and the numbers of targets that select the three entries are
    0, 0 and 1, not their weights. *)
Lemma C2_counterexample :
  Forall (fun w => 0 < w) (weights table_wrap_positive) /\
  weights table_wrap_positive = [2147483647; 2147483647; 3] /\
  targets (MaxWeight (Convert table_wrap_positive)) = [0] /\
  selection_count 3 (Convert table_wrap_positive) 0 = 0%nat /\
  selection_count 3 (Convert table_wrap_positive) 1 = 0%nat /\
  selection_count 3 (Convert table_wrap_positive) 2 = 1%nat.
Proof. split; [repeat constructor|]. repeat split; reflexivity. Qed.

(** C2 (amended): for every non-empty table of positive weights whose
    sum is at most [Int32.MaxValue]: a target equal to the cumulative
    weight of an entry that has a successor selects that successor, and
    for every entry the number of targets in [[0, MaxWeight)] that select
    it is exactly its weight.  For the weights [3, 5, 2] over
    [A, B, C] the cumulative weights are [3, 8, 10], and the targets 2,
    3, 7, 8 and 9 give A, B, B, C and C. *)
Theorem C2_boundaries_and_counts :
  (forall (DescBodyPart : Type) (bl : BucketList DescBodyPart) (fuel : nat),
     bl <> [] ->
     Forall (fun w => 0 < w) (weights bl) ->
     sum_Z (weights bl) <= Int32.MaxValue ->
     (length bl <= fuel)%nat ->
     (forall i e e' r,
        Items (Convert bl) !! i = Some e ->
        Items (Convert bl) !! S i = Some e' ->
        Next r (MaxWeight (Convert bl)) = Returned (CumulativeWeight e) ->
        GetRandom fuel (Convert bl) r = Returned (Value e')) /\
     (forall i item w, bl !! i = Some (item, w) ->
        Z.of_nat (selection_count fuel (Convert bl) i) = w)) /\
  (cumulative_weights (Items (Convert table_3_5_2)) = [3; 8; 10] /\
   GetRandom 3 (Convert table_3_5_2) (returning 2) = Returned "A"%string /\
   GetRandom 3 (Convert table_3_5_2) (returning 3) = Returned "B"%string /\
   GetRandom 3 (Convert table_3_5_2) (returning 7) = Returned "B"%string /\
   GetRandom 3 (Convert table_3_5_2) (returning 8) = Returned "C"%string /\
   GetRandom 3 (Convert table_3_5_2) (returning 9) = Returned "C"%string).
Proof.
  split; [|repeat split; reflexivity].
  intros DescBodyPart bl fuel Hne Hpos Hsum Hfuel.
  assert (Hrep : representable bl) by done.
  destruct (Convert_Invariant bl Hne Hpos Hsum) as (_ & HM & _).
  split.
  - intros i e e' r He He' Hnext.
    assert (Hi : (S i < length bl)%nat)
      by (rewrite <- Convert_length; by apply lookup_lt_Some in He').
    destruct (lookup_lt_is_Some_2 bl i) as ([item w] & Hbl); [lia|].
    destruct (lookup_lt_is_Some_2 bl (S i) Hi) as ([item' w'] & Hbl').
    rewrite (Convert_lookup_no_overflow bl i item w Hrep Hbl) in He.
    injection He as <-. cbn [CumulativeWeight] in Hnext.
    pose proof (sum_Z_take_S _ _ _ (lookup_weights bl (S i) item' w' Hbl')) as HS.
    assert (Hw' : 0 < w').
    { rewrite Forall_lookup in Hpos. apply (Hpos (S i)).
      by apply (lookup_weights bl (S i) item'). }
    pose proof (sum_Z_take_le (weights bl) (S i) Hpos).
    pose proof (sum_Z_take_le (weights bl) (S (S i)) Hpos).
    apply (GetRandom_of_search (Convert bl) r _ fuel (S i) e' Hnext); [|exact He'].
    apply (search_selects_iff bl _ fuel (S i) Hrep); [lia | exact Hfuel | exact Hi | lia].
  - intros i item w Hbl.
    assert (Hi : (i < length bl)%nat) by by apply lookup_lt_Some in Hbl.
    pose proof (sum_Z_take_S _ _ _ (lookup_weights bl i item w Hbl)) as HS.
    assert (Hw : 0 < w).
    { rewrite Forall_lookup in Hpos. apply (Hpos i).
      by apply (lookup_weights bl i item). }
    pose proof (sum_Z_take_le (weights bl) i Hpos).
    pose proof (sum_Z_take_le (weights bl) (S i) Hpos).
    unfold selection_count, targets. rewrite HM.
    rewrite (length_filter_interval _ (sum_Z (take i (weights bl)))
               (sum_Z (take (S i) (weights bl)))); [lia | lia | lia | lia |].
    intros t Ht. by apply search_selects_iff.
Qed.

Lemma C2_boundaries_and_counts_witness :
  (forall i e e' r,
     Items (Convert table_3_5_2) !! i = Some e ->
     Items (Convert table_3_5_2) !! S i = Some e' ->
     Next r (MaxWeight (Convert table_3_5_2)) = Returned (CumulativeWeight e) ->
     GetRandom 3 (Convert table_3_5_2) r = Returned (Value e')) /\
  (forall i item w, table_3_5_2 !! i = Some (item, w) ->
     Z.of_nat (selection_count 3 (Convert table_3_5_2) i) = w).
Proof.
  apply (proj1 C2_boundaries_and_counts string table_3_5_2 3%nat).
  - discriminate.
  - repeat constructor.
  - vm_compute. discriminate.
  - cbn. lia.
Defined.

(** ** The registry *)

(** C8, as the claim states it, fails: for a key whose weights sum to
    more than [Int32.MaxValue] the lookup returns a sampler whose
    [MaxWeight] is not that sum. *)
Lemma C8_counterexample :
  exists data,
    get (InitializeDescBodyParts {[ "K"%string := table_overflow ]}) "K"%string
    = Returned data /\
    MaxWeight data = -2147483648 /\
    sum_Z (weights table_overflow) = 2147483648.
Proof.
  exists (Convert table_overflow). unfold get.
  rewrite InitializeDescBodyParts_fmap, lookup_fmap, lookup_singleton_eq.
  repeat split.
Qed.

(** C8 (amended): for every key present in the raw table the lookup
    succeeds and returns the sampler built from that key's bucket list;
    its [MaxWeight] is the sum of the key's raw weights wrapped to 32
    bits, hence the sum itself whenever the sum is within the [int]
    range.  The lookup of a key that is not in the raw table fails with
    [UnknownKeyError]. *)
Theorem C8_registry_lookup {DescBodyPart : Type}
    (tempDict : gmap string (BucketList DescBodyPart)) (key : string) :
  (forall bl, tempDict !! key = Some bl ->
     get (InitializeDescBodyParts tempDict) key = Returned (Convert bl) /\
     MaxWeight (Convert bl) = Int32.wrap (sum_Z (weights bl)) /\
     (Int32.InRange (sum_Z (weights bl)) ->
      MaxWeight (Convert bl) = sum_Z (weights bl))) /\
  (tempDict !! key = None ->
     get (InitializeDescBodyParts tempDict) key = Thrown UnknownKeyError).
Proof.
  unfold get. rewrite InitializeDescBodyParts_fmap, lookup_fmap. split.
  - intros bl ->. split; [reflexivity|].
    assert (HM : MaxWeight (Convert bl) = Int32.wrap (sum_Z (weights bl))).
    { rewrite Convert_eq. cbn [MaxWeight].
      by rewrite final_sum_wrap by apply zero_InRange. }
    split; [exact HM|]. intros Hr. rewrite HM. by apply Int32Facts.wrap_id.
  - intros ->. reflexivity.
Qed.

Lemma C8_registry_lookup_witness :
  ({[ "K"%string := table_3_5_2 ]} : gmap string (BucketList string)) !! "K"%string
  = Some table_3_5_2 /\
  Int32.InRange (sum_Z (weights table_3_5_2)) /\
  get (InitializeDescBodyParts {[ "K"%string := table_3_5_2 ]}) "K"%string
  = Returned (Convert table_3_5_2) /\
  MaxWeight (Convert table_3_5_2) = sum_Z (weights table_3_5_2) /\
  ({[ "K"%string := table_3_5_2 ]} : gmap string (BucketList string)) !! "Z"%string
  = None /\
  get (InitializeDescBodyParts {[ "K"%string := table_3_5_2 ]}) "Z"%string
  = Thrown UnknownKeyError.
Proof.
  assert (HK : ({[ "K"%string := table_3_5_2 ]} : gmap string (BucketList string))
               !! "K"%string = Some table_3_5_2)
    by apply lookup_singleton_eq.
  assert (HZ : ({[ "K"%string := table_3_5_2 ]} : gmap string (BucketList string))
               !! "Z"%string = None)
    by (apply lookup_singleton_ne; discriminate).
  assert (HR : Int32.InRange (sum_Z (weights table_3_5_2)))
    by (vm_compute; split; discriminate).
  destruct (proj1 (C8_registry_lookup {[ "K"%string := table_3_5_2 ]} "K"%string)
              table_3_5_2 HK) as (Hget & _ & Hsum).
  split; [exact HK|]. split; [exact HR|]. split; [exact Hget|].
  split; [exact (Hsum HR)|]. split; [exact HZ|].
  exact (proj2 (C8_registry_lookup {[ "K"%string := table_3_5_2 ]} "Z"%string) HZ).
Defined.


(** * Further properties of the generated code *)

(** ** The number of iterations and the place where the search stops *)

Section SearchMore.

Context {DescBodyPart : Type}.
Implicit Types (items : list (Entry DescBodyPart)) (st : Z * Z).
Implicit Types (data : Data DescBodyPart).

(** One iteration with [mid] spelt out. *)
Lemma loop_body_mid items target st :
  Length items <= Int32.MaxValue ->
  in_bounds items st -> fst st < snd st ->
  exists e,
    items !! Z.to_nat (fst st + (snd st - fst st) `div` 2) = Some e /\
    loop_body items target st =
      Returned (if CumulativeWeight e <=? target
                then (fst st + (snd st - fst st) `div` 2 + 1, snd st)
                else (fst st, fst st + (snd st - fst st) `div` 2)).
Proof.
  intros Hlen (H0 & Hle & Hr) Hlt.
  pose proof (mid_between _ _ Hlt) as Hmid.
  destruct (Array_get_Some items (fst st + (snd st - fst st) `div` 2))
    as (e & He & Hget); [lia|].
  exists e. split; [exact He|].
  unfold loop_body. cbv zeta.
  rewrite mid_no_overflow by lia.
  rewrite Hget. cbn [mbind result_bind].
  destruct (CumulativeWeight e <=? target); [|reflexivity].
  unfold Int32.add. rewrite Int32Facts.wrap_id; [reflexivity|].
  unfold Int32.InRange, Int32.MinValue. unfold Int32.MaxValue in *. lia.
Qed.

(** Each iteration at least halves the width, so [fuel] iterations are
    enough for a width below [2 ^ fuel]. *)
Lemma while_loop_halving items target :
  Length items <= Int32.MaxValue ->
  forall fuel st, in_bounds items st -> width st < 2 ^ Z.of_nat fuel ->
  exists st', while_loop fuel items target st = Returned st' /\
              in_bounds items st' /\ fst st' = snd st'.
Proof.
  intros Hlen. induction fuel as [|fuel IH]; intros st Hb Hw.
  - destruct Hb as (H0 & Hle & Hr). unfold width in Hw.
    change (2 ^ Z.of_nat 0) with 1 in Hw.
    exists st. cbn. destruct (Z.ltb_spec (fst st) (snd st)); [lia|].
    split; [reflexivity|]. split; [done|lia].
  - cbn [while_loop].
    destruct (Z.ltb_spec (fst st) (snd st)) as [Hlt|Hge].
    + destruct (loop_body_mid items target st Hlen Hb Hlt) as (e & He & Hbody).
      rewrite Hbody. cbn [mbind result_bind].
      pose proof (mid_between _ _ Hlt) as Hmid.
      destruct Hb as (H0 & Hle & Hr). unfold width in Hw.
      rewrite Nat2Z.inj_succ, Z.pow_succ_r in Hw by lia.
      assert (Hhalf : (snd st - fst st) `div` 2 < 2 ^ Z.of_nat fuel)
        by (apply Z.div_lt_upper_bound; lia).
      pose proof (Z.div_mod (snd st - fst st) 2 ltac:(lia)) as Hdm.
      pose proof (Z.mod_pos_bound (snd st - fst st) 2 ltac:(lia)) as Hm.
      apply IH.
      * unfold in_bounds.
        destruct (CumulativeWeight e <=? target); cbn [fst snd]; lia.
      * unfold width.
        destruct (CumulativeWeight e <=? target); cbn [fst snd]; lia.
    + destruct Hb as (H0 & Hle & Hr).
      exists st. split; [reflexivity|]. split; [done|lia].
Qed.

Lemma crossing_inv_kept items target st mid e :
  crossing_inv items target st -> fst st <= mid < snd st ->
  items !! Z.to_nat mid = Some e ->
  crossing_inv items target
    (if CumulativeWeight e <=? target
     then (mid + 1, snd st) else (fst st, mid)).
Proof.
  intros ((H0 & Hle & Hr) & Hleft & Hright) Hmid He.
  destruct (Z.leb_spec (CumulativeWeight e) target) as [Hc|Hc].
  - split; [unfold in_bounds; cbn; lia|]. split; [|exact Hright].
    right. exists e. cbn [fst]. split; [|exact Hc].
    rewrite <- He. f_equal. lia.
  - split; [unfold in_bounds; cbn; lia|]. split; [exact Hleft|].
    right. exists e. cbn [snd]. split; [exact He | lia].
Qed.

(** On every non-empty array the search stops at a crossing. *)
Lemma search_crossing items target fuel :
  1 <= Length items <= Int32.MaxValue ->
  Length items - 1 <= Z.of_nat fuel ->
  exists i : nat,
    search fuel items target = Returned (Z.of_nat i) /\
    crossing items target i.
Proof.
  intros Hlen Hfuel.
  destruct (while_loop_rule items target (crossing_inv items target))
    with (fuel := fuel) (st := (0, Length items - 1))
    as (st' & Hrun & Hinv & Heq).
  - lia.
  - intros st H. exact (proj1 H).
  - intros st mid e H Hm He. by apply crossing_inv_kept.
  - split; [unfold in_bounds; cbn; lia|]. split; left; reflexivity.
  - unfold width. cbn. lia.
  - destruct Hinv as ((H0 & _ & Hr) & Hleft & Hright).
    exists (Z.to_nat (fst st')). split.
    + unfold search. rewrite initial_state_nonempty by lia.
      rewrite Hrun. cbn. f_equal. lia.
    + destruct (lookup_lt_is_Some_2 items (Z.to_nat (fst st'))) as (e & He).
      { unfold Length in *. lia. }
      split.
      * exists e. split; [exact He|].
        destruct Hright as [Hlast|(e0 & He0 & Hgt)].
        -- right. unfold Length in *. lia.
        -- left. rewrite <- Heq, He in He0. by injection He0 as <-.
      * destruct Hleft as [Hz|(e' & He' & Hle')].
        -- left. lia.
        -- right. exists e'. split; [|exact Hle'].
           rewrite <- He'. f_equal. lia.
Qed.

End SearchMore.

(** X1: the search is logarithmic, as the summary of [GetRandom] says:
    on a non-empty array, [fuel] iterations are enough as soon as
    [Length <= 2 ^ fuel]; [GetRandom] then returns the value of an entry
    of the array. *)
Theorem X1_logarithmic_iterations {DescBodyPart : Type}
    (data : Data DescBodyPart) (r : Random) (target : Z) (fuel : nat) :
  1 <= Length (Items data) <= Int32.MaxValue ->
  Length (Items data) <= 2 ^ Z.of_nat fuel ->
  Next r (MaxWeight data) = Returned target ->
  exists (i : Z) (e : Entry DescBodyPart),
    search fuel (Items data) target = Returned i /\
    0 <= i < Length (Items data) /\
    Items data !! Z.to_nat i = Some e /\
    GetRandom fuel data r = Returned (Value e).
Proof.
  intros Hlen Hfuel Hnext.
  destruct (while_loop_halving (Items data) target (proj2 Hlen) fuel
              (0, Length (Items data) - 1))
    as (st' & Hrun & (H0 & Hle & Hr) & Heq).
  { unfold in_bounds; cbn; lia. }
  { unfold width; cbn; lia. }
  destruct (Array_get_Some (Items data) (fst st')) as (e & He & Hget); [lia|].
  assert (Hsearch : search fuel (Items data) target = Returned (fst st')).
  { unfold search. rewrite initial_state_nonempty by exact Hlen.
    rewrite Hrun. reflexivity. }
  exists (fst st'), e. split; [exact Hsearch|]. split; [lia|].
  split; [exact He|].
  unfold GetRandom. rewrite Hnext. cbn [mbind result_bind].
  rewrite Hsearch. cbn [mbind result_bind]. rewrite Hget. reflexivity.
Qed.

Lemma X1_logarithmic_iterations_witness :
  exists (i : Z) (e : Entry string),
    search 2 (Items data_3_5_2) 9 = Returned i /\
    0 <= i < Length (Items data_3_5_2) /\
    Items data_3_5_2 !! Z.to_nat i = Some e /\
    GetRandom 2 data_3_5_2 (returning 9) = Returned (Value e).
Proof.
  apply (X1_logarithmic_iterations data_3_5_2 (returning 9) 9 2).
  - vm_compute. split; discriminate.
  - vm_compute. discriminate.
  - reflexivity.
Defined.

(** X2: on every non-empty array, sorted or not (the running sums may
    have wrapped), and for every target, the search stops at an entry
    that is above the target or is the last one, and whose left
    neighbour, if any, is at most the target; [GetRandom] returns the
    value of that entry. *)
Theorem X2_stops_at_crossing {DescBodyPart : Type}
    (data : Data DescBodyPart) (r : Random) (target : Z) (fuel : nat) :
  1 <= Length (Items data) <= Int32.MaxValue ->
  Length (Items data) - 1 <= Z.of_nat fuel ->
  Next r (MaxWeight data) = Returned target ->
  exists (i : nat) (e : Entry DescBodyPart),
    search fuel (Items data) target = Returned (Z.of_nat i) /\
    Items data !! i = Some e /\
    (target < CumulativeWeight e \/ S i = length (Items data)) /\
    (i = 0%nat \/
     exists e', Items data !! pred i = Some e' /\ CumulativeWeight e' <= target) /\
    GetRandom fuel data r = Returned (Value e).
Proof.
  intros Hlen Hfuel Hnext.
  destruct (search_crossing (Items data) target fuel Hlen Hfuel)
    as (i & Hsearch & (e & He & Hright) & Hleft).
  exists i, e. split; [exact Hsearch|]. split; [exact He|].
  split; [exact Hright|]. split; [exact Hleft|].
  by apply (GetRandom_of_search data r target fuel i e).
Qed.

Lemma X2_stops_at_crossing_witness :
  exists (i : nat) (e : Entry string),
    search 2 (Items (Convert table_wrap_positive)) 0 = Returned (Z.of_nat i) /\
    Items (Convert table_wrap_positive) !! i = Some e /\
    (0 < CumulativeWeight e \/ S i = length (Items (Convert table_wrap_positive))) /\
    (i = 0%nat \/
     exists e', Items (Convert table_wrap_positive) !! pred i = Some e' /\
                CumulativeWeight e' <= 0) /\
    GetRandom 2 (Convert table_wrap_positive) (returning 0) = Returned (Value e).
Proof.
  apply (X2_stops_at_crossing (Convert table_wrap_positive) (returning 0) 0 2).
  - vm_compute. split; discriminate.
  - vm_compute. discriminate.
  - reflexivity.
Defined.

(** X3: a target outside the range of the array is clamped, not
    rejected: if no entry is above the target (as for a target
    [>= MaxWeight] on sorted data) [GetRandom] returns the last value,
    and if every entry is above the target (as for a negative target on
    positive sums) it returns the first value. *)
Theorem X3_out_of_range_target_is_clamped {DescBodyPart : Type}
    (data : Data DescBodyPart) (r : Random) (target : Z) (fuel : nat) :
  1 <= Length (Items data) <= Int32.MaxValue ->
  Length (Items data) - 1 <= Z.of_nat fuel ->
  Next r (MaxWeight data) = Returned target ->
  ((forall e, e ∈ Items data -> CumulativeWeight e <= target) ->
   forall e, last (Items data) = Some e ->
             GetRandom fuel data r = Returned (Value e)) /\
  ((forall e, e ∈ Items data -> target < CumulativeWeight e) ->
   forall e, head (Items data) = Some e ->
             GetRandom fuel data r = Returned (Value e)).
Proof.
  intros Hlen Hfuel Hnext.
  destruct (search_crossing (Items data) target fuel Hlen Hfuel)
    as (i & Hsearch & (e0 & He0 & Hright) & Hleft).
  split; intros Hall e He.
  - apply (GetRandom_of_search data r target fuel i e Hnext Hsearch).
    rewrite last_lookup in He.
    destruct Hright as [Hgt|Hlast].
    + specialize (Hall e0 (list_elem_of_lookup_2 _ _ _ He0)). lia.
    + rewrite <- He. f_equal. lia.
  - apply (GetRandom_of_search data r target fuel i e Hnext Hsearch).
    rewrite head_lookup in He.
    destruct Hleft as [->|(e' & He' & Hle)]; [exact He|].
    specialize (Hall e' (list_elem_of_lookup_2 _ _ _ He')). lia.
Qed.

Lemma X3_out_of_range_target_is_clamped_witness :
  (forall e, e ∈ Items data_3_5_2 -> CumulativeWeight e <= 10) /\
  (forall e, e ∈ Items data_3_5_2 -> -1 < CumulativeWeight e) /\
  GetRandom 3 data_3_5_2 (returning 10) = Returned "C"%string /\
  GetRandom 3 data_3_5_2 (returning (-1)) = Returned "A"%string.
Proof.
  assert (Hlen : 1 <= Length (Items data_3_5_2) <= Int32.MaxValue)
    by (vm_compute; split; discriminate).
  assert (Hfuel : Length (Items data_3_5_2) - 1 <= Z.of_nat 3)
    by (vm_compute; discriminate).
  assert (Hhi : forall e, e ∈ Items data_3_5_2 -> CumulativeWeight e <= 10).
  { intros e He. cbn in He. rewrite !elem_of_cons, elem_of_nil in He.
    destruct He as [->|[->|[->|[]]]]; cbn; lia. }
  assert (Hlo : forall e, e ∈ Items data_3_5_2 -> -1 < CumulativeWeight e).
  { intros e He. cbn in He. rewrite !elem_of_cons, elem_of_nil in He.
    destruct He as [->|[->|[->|[]]]]; cbn; lia. }
  split; [exact Hhi|]. split; [exact Hlo|]. split.
  - exact (proj1 (X3_out_of_range_target_is_clamped data_3_5_2 (returning 10) 10 3
                    Hlen Hfuel eq_refl) Hhi _ eq_refl).
  - exact (proj2 (X3_out_of_range_target_is_clamped data_3_5_2 (returning (-1)) (-1) 3
                    Hlen Hfuel eq_refl) Hlo _ eq_refl).
Defined.

(** ** Sorted arrays that may hold equal neighbours *)

Lemma nondecreasing_lookup (cs : list Z) :
  nondecreasing cs = true ->
  forall (i j : nat) (a b : Z),
    (i <= j)%nat -> cs !! i = Some a -> cs !! j = Some b -> a <= b.
Proof.
  induction cs as [|c1 tl IH]; intros Hs i j a b Hij Hi Hj.
  - discriminate.
  - destruct tl as [|c2 tl'].
    + destruct i; [|discriminate]. destruct j; [|discriminate].
      cbn in Hi, Hj. injection Hi as <-. injection Hj as <-. lia.
    + cbn [nondecreasing] in Hs. apply andb_prop in Hs as [H12 Hs].
      apply Z.leb_le in H12.
      destruct j as [|j'].
      * assert (i = 0%nat) as -> by lia.
        cbn in Hi, Hj. injection Hi as <-. injection Hj as <-. lia.
      * cbn in Hj. destruct i as [|i'].
        -- cbn in Hi. injection Hi as <-.
           assert (c2 <= b) by (apply (IH Hs 0%nat j'); [lia|done|done]).
           lia.
        -- cbn in Hi. apply (IH Hs i' j'); [lia|done|done].
Qed.

Lemma nondecreasing_intro (cs : list Z) :
  (forall i a b, cs !! i = Some a -> cs !! S i = Some b -> a <= b) ->
  nondecreasing cs = true.
Proof.
  induction cs as [|c1 tl IH]; intros H; [done|].
  destruct tl as [|c2 tl']; [done|].
  cbn [nondecreasing]. apply andb_true_intro. split.
  - apply Z.leb_le. by apply (H 0%nat).
  - apply IH. intros i a b Ha Hb. by apply (H (S i)).
Qed.

Section Sorted.

Context {DescBodyPart : Type}.
Implicit Types (items : list (Entry DescBodyPart)).

(** On a sorted array whose last entry is above the target, a crossing
    is the leftmost entry above the target. *)
Lemma crossing_leftmost items target i :
  nondecreasing (cumulative_weights items) = true ->
  (exists c, last (cumulative_weights items) = Some c /\ target < c) ->
  crossing items target i -> leftmost_greater items target i.
Proof.
  intros Hs (c & Hlast & Hc) ((e & He & Hright) & Hleft). split.
  - exists e. split; [exact He|].
    destruct Hright as [Hgt|Hend]; [exact Hgt|].
    unfold cumulative_weights in Hlast. rewrite fmap_last, last_lookup in Hlast.
    replace (pred (length items)) with i in Hlast by lia.
    rewrite He in Hlast. injection Hlast as <-. exact Hc.
  - intros j ej Hj Hej.
    destruct Hleft as [->|(e' & He' & Hle)]; [lia|].
    assert (CumulativeWeight ej <= CumulativeWeight e'); [|lia].
    apply (nondecreasing_lookup _ Hs j (pred i));
      [lia | by apply cumulative_lookup | by apply cumulative_lookup].
Qed.

Lemma search_leftmost_sorted items target fuel :
  Length items <= Int32.MaxValue ->
  nondecreasing (cumulative_weights items) = true ->
  (exists c, last (cumulative_weights items) = Some c /\ target < c) ->
  (length items <= fuel)%nat ->
  exists i : nat,
    search fuel items target = Returned (Z.of_nat i) /\
    leftmost_greater items target i.
Proof.
  intros Hlen Hs Hlast Hfuel.
  assert (Hne : 1 <= Length items).
  { destruct Hlast as (c & Hl & _). unfold Length.
    destruct items; [discriminate | cbn; lia]. }
  destruct (search_crossing items target fuel) as (i & Hsearch & Hcross);
    [lia | unfold Length in *; lia |].
  exists i. split; [exact Hsearch|]. by apply crossing_leftmost.
Qed.

End Sorted.

(** X4: on a sorted array (equal neighbours allowed) the entry found
    never moves left when the target grows: for targets [t1 <= t2] the
    search ends at indices [i1 <= i2], whatever the targets are. *)
Theorem X4_search_monotone_in_target {DescBodyPart : Type}
    (items : list (Entry DescBodyPart)) (t1 t2 : Z) (fuel : nat) :
  1 <= Length items <= Int32.MaxValue ->
  nondecreasing (cumulative_weights items) = true ->
  t1 <= t2 ->
  (length items <= fuel)%nat ->
  exists i1 i2 : nat,
    search fuel items t1 = Returned (Z.of_nat i1) /\
    search fuel items t2 = Returned (Z.of_nat i2) /\
    (i1 <= i2)%nat.
Proof.
  intros Hlen Hs Ht Hfuel.
  destruct (search_crossing items t1 fuel Hlen) as (i1 & Hs1 & (e1 & He1 & Hr1) & Hl1);
    [unfold Length in *; lia|].
  destruct (search_crossing items t2 fuel Hlen) as (i2 & Hs2 & (e2 & He2 & Hr2) & Hl2);
    [unfold Length in *; lia|].
  exists i1, i2. split; [exact Hs1|]. split; [exact Hs2|].
  destruct (Nat.le_gt_cases i1 i2) as [|Hlt]; [done|].
  exfalso.
  destruct Hl1 as [->|(e' & He' & Hle')]; [lia|].
  apply lookup_lt_Some in He1 as Hi1.
  destruct Hr2 as [Hgt|Hend]; [|lia].
  assert (CumulativeWeight e2 <= CumulativeWeight e'); [|lia].
  apply (nondecreasing_lookup _ Hs i2 (pred i1));
    [lia | by apply cumulative_lookup | by apply cumulative_lookup].
Qed.

Lemma X4_search_monotone_in_target_witness :
  exists i1 i2 : nat,
    search 3 (Items data_3_5_2) 2 = Returned (Z.of_nat i1) /\
    search 3 (Items data_3_5_2) 8 = Returned (Z.of_nat i2) /\
    (i1 <= i2)%nat.
Proof.
  apply (X4_search_monotone_in_target (Items data_3_5_2) 2 8 3).
  - vm_compute. split; discriminate.
  - reflexivity.
  - lia.
  - cbn. lia.
Defined.

(** ** Tables with zero weights *)

Lemma sum_Z_app (l1 l2 : list Z) : sum_Z (l1 ++ l2) = sum_Z l1 + sum_Z l2.
Proof.
  induction l1 as [|w l1 IH]; [done|].
  rewrite <- app_comm_cons, !sum_Z_cons, IH. lia.
Qed.

Lemma sum_Z_nonneg0 (ws : list Z) :
  Forall (fun w => 0 <= w) ws -> 0 <= sum_Z ws.
Proof. induction 1 as [|w ws Hw H IH]; [done|]. rewrite sum_Z_cons. lia. Qed.

Lemma sum_Z_take_le0 (ws : list Z) (n : nat) :
  Forall (fun w => 0 <= w) ws -> 0 <= sum_Z (take n ws) <= sum_Z ws.
Proof.
  intros H. rewrite <- (take_drop n ws) at 3. rewrite sum_Z_app.
  pose proof (sum_Z_nonneg0 (take n ws) ltac:(by apply Forall_take)).
  pose proof (sum_Z_nonneg0 (drop n ws) ltac:(by apply Forall_drop)). lia.
Qed.

Lemma sum_Z_take_mono0 (ws : list Z) (j i : nat) :
  Forall (fun w => 0 <= w) ws -> (j <= i)%nat ->
  sum_Z (take j ws) <= sum_Z (take i ws).
Proof.
  intros Hpos Hji.
  replace (take j ws) with (take j (take i ws))
    by (rewrite take_take; f_equal; lia).
  apply sum_Z_take_le0. by apply Forall_take.
Qed.

Section Admissible.

Context {DescBodyPart : Type}.
Implicit Types (bl : BucketList DescBodyPart).

(** The last cumulative weight is [MaxWeight], wrapped or not. *)
Lemma entries_from_last c bl :
  bl <> [] ->
  last (cumulative_weights (entries_from c bl)) = Some (final_sum c bl).
Proof.
  revert c. induction bl as [|[item p] rest IH]; intros c Hne; [done|].
  destruct rest as [|[item' p'] rest']; [reflexivity|].
  cbn [entries_from final_sum cumulative_weights fmap list_fmap] in IH |- *.
  rewrite last_cons_cons. by apply (IH (Int32.add c p)).
Qed.

Lemma Convert_lookup_admissible bl i item w :
  admissible bl -> bl !! i = Some (item, w) ->
  Items (Convert bl) !! i
  = Some {| CumulativeWeight := sum_Z (take (S i) (weights bl));
            Value := item |}.
Proof.
  intros (Hpos & Hsum & Hlen) Hi. rewrite Convert_eq. cbn [Items].
  rewrite (entries_from_lookup 0 bl i item w Hi). rewrite Z.add_0_l.
  rewrite Int32Facts.wrap_id; [done|].
  pose proof (sum_Z_take_le0 (weights bl) (S i) Hpos).
  unfold Int32.InRange, Int32.MinValue. unfold Int32.MaxValue in *. lia.
Qed.

Lemma Convert_MaxWeight_admissible bl :
  admissible bl -> MaxWeight (Convert bl) = sum_Z (weights bl).
Proof.
  intros (Hpos & Hsum & Hlen). rewrite Convert_eq. cbn [MaxWeight].
  rewrite final_sum_wrap by apply zero_InRange. rewrite Z.add_0_l.
  apply Int32Facts.wrap_id.
  unfold Int32.InRange, Int32.MinValue. unfold Int32.MaxValue in *. lia.
Qed.

Lemma admissible_nonempty bl : admissible bl -> bl <> [].
Proof. intros (_ & Hsum & _) ->. cbn in Hsum. lia. Qed.

Lemma Convert_sorted_admissible bl :
  admissible bl ->
  nondecreasing (cumulative_weights (Items (Convert bl))) = true.
Proof.
  intros Had. apply nondecreasing_intro. intros i a b Ha Hb.
  unfold cumulative_weights in Ha, Hb. rewrite list_lookup_fmap in Ha, Hb.
  destruct (Items (Convert bl) !! S i) as [eb|] eqn:Eb; [|discriminate].
  destruct (Items (Convert bl) !! i) as [ea|] eqn:Ea; [|discriminate].
  injection Ha as <-. injection Hb as <-.
  assert (Hi : (S i < length bl)%nat)
    by (rewrite <- Convert_length; by apply lookup_lt_Some in Eb).
  destruct (lookup_lt_is_Some_2 bl i) as ([item w] & Hbl); [lia|].
  destruct (lookup_lt_is_Some_2 bl (S i) Hi) as ([item' w'] & Hbl').
  rewrite (Convert_lookup_admissible bl i item w Had Hbl) in Ea.
  rewrite (Convert_lookup_admissible bl (S i) item' w' Had Hbl') in Eb.
  injection Ea as <-. injection Eb as <-. cbn [CumulativeWeight].
  destruct Had as (Hpos & _). apply sum_Z_take_mono0; [done|lia].
Qed.

Lemma search_admissible bl target fuel :
  admissible bl -> target < sum_Z (weights bl) ->
  (length bl <= fuel)%nat ->
  exists i : nat,
    search fuel (Items (Convert bl)) target = Returned (Z.of_nat i) /\
    leftmost_greater (Items (Convert bl)) target i.
Proof.
  intros Had Ht Hfuel.
  apply search_leftmost_sorted.
  - unfold Length. rewrite Convert_length. by destruct Had as (_ & _ & Hlen).
  - by apply Convert_sorted_admissible.
  - exists (MaxWeight (Convert bl)). split.
    + rewrite Convert_eq. cbn [Items MaxWeight].
      apply entries_from_last. by apply admissible_nonempty.
    + by rewrite Convert_MaxWeight_admissible.
  - by rewrite Convert_length.
Qed.

Lemma leftmost_of_prefix_admissible bl target i :
  admissible bl -> (i < length bl)%nat ->
  sum_Z (take i (weights bl)) <= target < sum_Z (take (S i) (weights bl)) ->
  leftmost_greater (Items (Convert bl)) target i.
Proof.
  intros Had Hi Ht.
  destruct (lookup_lt_is_Some_2 bl i Hi) as ([item w] & Hbl).
  split.
  - eexists. split; [by apply (Convert_lookup_admissible bl i item w)|].
    cbn. lia.
  - intros j e Hj He.
    destruct (lookup_lt_is_Some_2 bl j) as ([item' w'] & Hbl'); [lia|].
    rewrite (Convert_lookup_admissible bl j item' w' Had Hbl') in He.
    injection He as <-. cbn.
    destruct Had as (Hpos & _).
    pose proof (sum_Z_take_mono0 (weights bl) (S j) i Hpos). lia.
Qed.

(** Entry [i] is selected by the targets from the sum of the weights
    before it (included) to that sum plus its own weight (excluded). *)
Lemma search_selects_iff_admissible bl target fuel i :
  admissible bl -> 0 <= target < sum_Z (weights bl) ->
  (length bl <= fuel)%nat -> (i < length bl)%nat ->
  search fuel (Items (Convert bl)) target = Returned (Z.of_nat i)
  <-> sum_Z (take i (weights bl)) <= target < sum_Z (take (S i) (weights bl)).
Proof.
  intros Had Ht Hfuel Hi.
  destruct (search_admissible bl target fuel Had (proj2 Ht) Hfuel)
    as (k & Hsearch & Hk).
  split.
  - intros Hs. rewrite Hsearch in Hs. injection Hs as Hs.
    apply Nat2Z.inj in Hs. subst k.
    destruct Hk as ((e & He & Hgt) & Hle).
    destruct (lookup_lt_is_Some_2 bl i Hi) as ([item w] & Hbl).
    rewrite (Convert_lookup_admissible bl i item w Had Hbl) in He.
    injection He as <-. cbn in Hgt. split; [|exact Hgt].
    destruct i as [|i']; [rewrite take_0; change (sum_Z []) with 0; lia|].
    destruct (lookup_lt_is_Some_2 bl i') as ([item' w'] & Hbl'); [lia|].
    apply (Hle i' _ (Nat.lt_succ_diag_r i')
             (Convert_lookup_admissible bl i' item' w' Had Hbl')).
  - intros Hp. rewrite Hsearch. do 2 f_equal.
    apply (leftmost_greater_unique (Items (Convert bl)) target);
      [exact Hk | by apply leftmost_of_prefix_admissible].
Qed.

End Admissible.

(** X5: weights of zero are handled: for a table of non-negative
    weights with a positive sum of at most [Int32.MaxValue], the number
    of targets in [[0, MaxWeight)] that select an entry is its weight, so
    an entry of weight zero is selected by none, and every target in that
    range makes [GetRandom] return the value of a pair of positive
    weight. *)
Theorem X5_zero_weights_never_drawn {DescBodyPart : Type}
    (bl : BucketList DescBodyPart) (fuel : nat) :
  Forall (fun w => 0 <= w) (weights bl) ->
  0 < sum_Z (weights bl) <= Int32.MaxValue ->
  Length bl <= Int32.MaxValue ->
  (length bl <= fuel)%nat ->
  (forall i item w, bl !! i = Some (item, w) ->
     Z.of_nat (selection_count fuel (Convert bl) i) = w) /\
  (forall r target,
     Next r (MaxWeight (Convert bl)) = Returned target ->
     0 <= target < MaxWeight (Convert bl) ->
     exists i item w,
       bl !! i = Some (item, w) /\ 0 < w /\
       search fuel (Items (Convert bl)) target = Returned (Z.of_nat i) /\
       GetRandom fuel (Convert bl) r = Returned item).
Proof.
  intros Hpos Hsum Hlen Hfuel.
  assert (Had : admissible bl) by done.
  pose proof (Convert_MaxWeight_admissible bl Had) as HM.
  split.
  - intros i item w Hbl.
    assert (Hi : (i < length bl)%nat) by by apply lookup_lt_Some in Hbl.
    pose proof (sum_Z_take_S _ _ _ (lookup_weights bl i item w Hbl)) as HS.
    assert (Hw : 0 <= w).
    { rewrite Forall_lookup in Hpos. apply (Hpos i).
      by apply (lookup_weights bl i item). }
    pose proof (sum_Z_take_le0 (weights bl) i Hpos).
    pose proof (sum_Z_take_le0 (weights bl) (S i) Hpos).
    unfold selection_count, targets. rewrite HM.
    rewrite (length_filter_interval _ (sum_Z (take i (weights bl)))
               (sum_Z (take (S i) (weights bl)))); [lia | lia | lia | lia |].
    intros t Ht. by apply search_selects_iff_admissible.
  - intros r target Hnext Ht. rewrite HM in Ht.
    destruct (search_admissible bl target fuel Had (proj2 Ht) Hfuel)
      as (i & Hsearch & Hk).
    assert (Hi : (i < length bl)%nat).
    { destruct Hk as ((e & He & _) & _). rewrite <- Convert_length.
      by apply lookup_lt_Some in He. }
    destruct (lookup_lt_is_Some_2 bl i Hi) as ([item w] & Hbl).
    pose proof (proj1 (search_selects_iff_admissible bl target fuel i
                         Had Ht Hfuel Hi) Hsearch) as Hrange.
    pose proof (sum_Z_take_S _ _ _ (lookup_weights bl i item w Hbl)) as HS.
    exists i, item, w. split; [exact Hbl|]. split; [lia|].
    split; [exact Hsearch|].
    apply (GetRandom_of_search (Convert bl) r target fuel i
             {| CumulativeWeight := sum_Z (take (S i) (weights bl));
                Value := item |} Hnext Hsearch).
    by apply (Convert_lookup_admissible bl i item w).
Qed.

Lemma X5_zero_weights_never_drawn_witness :
  (forall i item w, table_zero_repeat !! i = Some (item, w) ->
     Z.of_nat (selection_count 4 (Convert table_zero_repeat) i) = w) /\
  (forall r target,
     Next r (MaxWeight (Convert table_zero_repeat)) = Returned target ->
     0 <= target < MaxWeight (Convert table_zero_repeat) ->
     exists i item w,
       table_zero_repeat !! i = Some (item, w) /\ 0 < w /\
       search 4 (Items (Convert table_zero_repeat)) target = Returned (Z.of_nat i) /\
       GetRandom 4 (Convert table_zero_repeat) r = Returned item).
Proof.
  apply (X5_zero_weights_never_drawn table_zero_repeat 4).
  - repeat constructor; discriminate.
  - vm_compute. split; [reflexivity | discriminate].
  - vm_compute. discriminate.
  - cbn. lia.
Defined.

Section Frequency.

Context {DescBodyPart : Type} `{EqDecision DescBodyPart}.
Implicit Types (bl : BucketList DescBodyPart).

(** The targets below the sum of the first [n] weights that return
    [v] are as many as the weights of [v] among the first [n] pairs. *)
Lemma value_count_prefix bl fuel v n :
  admissible bl -> (length bl <= fuel)%nat -> (n <= length bl)%nat ->
  Z.of_nat (length (filter
     (fun t => GetRandom fuel (Convert bl) (returning t) = Returned v)
     (seqZ 0 (sum_Z (take n (weights bl))))))
  = weight_of (take n bl) v.
Proof.
  intros Had Hfuel. induction n as [|n IH]; intros Hn.
  - rewrite !take_0. reflexivity.
  - destruct (lookup_lt_is_Some_2 bl n) as ([item w] & Hbl); [lia|].
    pose proof (sum_Z_take_S _ _ _ (lookup_weights bl n item w Hbl)) as HS.
    destruct Had as (Hpos & Hsum & Hlen).
    assert (Hw : 0 <= w).
    { rewrite Forall_lookup in Hpos. apply (Hpos n).
      by apply (lookup_weights bl n item). }
    pose proof (sum_Z_take_le0 (weights bl) n Hpos) as Hn0.
    pose proof (sum_Z_take_le0 (weights bl) (S n) Hpos) as Hn1.
    rewrite HS, seqZ_app by lia. rewrite filter_app, length_app, Nat2Z.inj_add.
    rewrite IH by lia. rewrite Z.add_0_l.
    rewrite (take_S_r bl n (item, w) Hbl). unfold weight_of.
    rewrite filter_app, fmap_app, sum_Z_app. f_equal.
    assert (Hsel : forall t, sum_Z (take n (weights bl)) <= t
                             < sum_Z (take n (weights bl)) + w ->
              GetRandom fuel (Convert bl) (returning t) = Returned item).
    { intros t Ht.
      apply (GetRandom_of_search (Convert bl) (returning t) t fuel n
               {| CumulativeWeight := sum_Z (take (S n) (weights bl));
                  Value := item |}); [reflexivity | |].
      - apply search_selects_iff_admissible; [done | lia | done | lia | lia].
      - by apply (Convert_lookup_admissible bl n item w). }
    destruct (decide (item = v)) as [->|Hne].
    + rewrite filter_cons_True by done. rewrite filter_nil.
      rewrite length_filter_all.
      * rewrite length_seqZ. cbn. lia.
      * apply Forall_seqZ. intros t Ht. by apply Hsel.
    + rewrite filter_cons_False by done. rewrite filter_nil.
      rewrite length_filter_none; [reflexivity|].
      apply Forall_seqZ. intros t Ht. rewrite (Hsel t Ht).
      intros [= ?]. done.
Qed.

End Frequency.

(** X6: a value that occurs in several pairs is drawn with their
    combined weight: for a table of non-negative weights with a positive
    sum of at most [Int32.MaxValue], the number of targets in
    [[0, MaxWeight)] for which [GetRandom] returns [v] is the sum of the
    weights of the pairs that hold [v]. *)
Theorem X6_value_frequency {DescBodyPart : Type} `{EqDecision DescBodyPart}
    (bl : BucketList DescBodyPart) (fuel : nat) (v : DescBodyPart) :
  Forall (fun w => 0 <= w) (weights bl) ->
  0 < sum_Z (weights bl) <= Int32.MaxValue ->
  Length bl <= Int32.MaxValue ->
  (length bl <= fuel)%nat ->
  Z.of_nat (value_count fuel (Convert bl) v) = weight_of bl v.
Proof.
  intros Hpos Hsum Hlen Hfuel.
  assert (Had : admissible bl) by done.
  pose proof (value_count_prefix bl fuel v (length bl) Had Hfuel (le_n _)) as H.
  rewrite (take_ge bl) in H by lia.
  rewrite (take_ge (weights bl)) in H by (unfold weights; rewrite length_fmap; lia).
  unfold value_count, targets. by rewrite Convert_MaxWeight_admissible.
Qed.

Lemma X6_value_frequency_witness :
  Z.of_nat (value_count 4 (Convert table_zero_repeat) "A"%string)
  = weight_of table_zero_repeat "A"%string.
Proof.
  apply (X6_value_frequency table_zero_repeat 4 "A"%string).
  - repeat constructor; discriminate.
  - vm_compute. split; [reflexivity | discriminate].
  - vm_compute. discriminate.
  - cbn. lia.
Defined.

(** ** The construction, whatever the weights *)

Lemma wrap_add_r (a b : Z) : Int32.wrap (a + Int32.wrap b) = Int32.wrap (a + b).
Proof. rewrite (Z.add_comm a), Int32Facts.wrap_add_l. by rewrite Z.add_comm. Qed.

Section Append.

Context {DescBodyPart : Type}.
Implicit Types (bl : BucketList DescBodyPart).

Lemma entries_from_app c bl1 bl2 :
  entries_from c (bl1 ++ bl2)
  = entries_from c bl1 ++ entries_from (final_sum c bl1) bl2.
Proof.
  revert c. induction bl1 as [|[item p] rest IH]; intros c; [done|].
  cbn [app entries_from final_sum]. by rewrite IH.
Qed.

Lemma final_sum_app c bl1 bl2 :
  final_sum c (bl1 ++ bl2) = final_sum (final_sum c bl1) bl2.
Proof.
  revert c. induction bl1 as [|[item p] rest IH]; intros c; [done|].
  cbn [app final_sum]. by rewrite IH.
Qed.

Lemma final_sum_InRange c bl : Int32.InRange c -> Int32.InRange (final_sum c bl).
Proof.
  intros Hc. rewrite final_sum_wrap by done. apply Int32Facts.wrap_InRange.
Qed.

End Append.

(** X7: [MaxWeight] is the cumulative weight of the last entry for
    every non-empty input, whatever the weights are, also when the
    running sum has wrapped. *)
Theorem X7_MaxWeight_is_last_cumulative {DescBodyPart : Type}
    (bl : BucketList DescBodyPart) :
  bl <> [] ->
  last (cumulative_weights (Items (Convert bl))) = Some (MaxWeight (Convert bl)).
Proof.
  intros Hne. rewrite Convert_eq. cbn [Items MaxWeight].
  by apply entries_from_last.
Qed.

Lemma X7_MaxWeight_is_last_cumulative_witness :
  last (cumulative_weights (Items (Convert table_wrap_positive)))
  = Some (MaxWeight (Convert table_wrap_positive)).
Proof.
  apply (X7_MaxWeight_is_last_cumulative table_wrap_positive). discriminate.
Defined.

(** X8: the construction of a concatenation: the entries built from
    [bl1 ++ bl2] are those built from [bl1] followed by those built from
    [bl2] with their cumulative weights shifted by the [MaxWeight] of
    [bl1] (a 32-bit addition), and the [MaxWeight]s add up in 32 bits.
    So appending pairs to a bucket list leaves the earlier entries as they
    were. *)
Theorem X8_construction_of_concatenation {DescBodyPart : Type}
    (bl1 bl2 : BucketList DescBodyPart) :
  take (length bl1) (Items (Convert (bl1 ++ bl2))) = Items (Convert bl1) /\
  drop (length bl1) (Items (Convert (bl1 ++ bl2)))
  = (fun e => {| CumulativeWeight :=
                   Int32.add (MaxWeight (Convert bl1)) (CumulativeWeight e);
                 Value := Value e |}) <$> Items (Convert bl2) /\
  MaxWeight (Convert (bl1 ++ bl2))
  = Int32.add (MaxWeight (Convert bl1)) (MaxWeight (Convert bl2)).
Proof.
  rewrite !Convert_eq. cbn [Items MaxWeight].
  rewrite entries_from_app, final_sum_app.
  assert (Hlen : length (entries_from 0 bl1) = length bl1)
    by apply entries_from_length.
  assert (Hr : Int32.InRange (final_sum 0 bl1))
    by (apply final_sum_InRange, zero_InRange).
  split; [by rewrite take_app_length'|].
  split.
  - rewrite drop_app_length' by done.
    generalize (final_sum 0 bl1), Hr. intros c Hc.
    apply list_eq. intros j. rewrite list_lookup_fmap.
    destruct (bl2 !! j) as [[item w]|] eqn:Hj.
    + rewrite (entries_from_lookup c bl2 j item w Hj).
      rewrite (entries_from_lookup 0 bl2 j item w Hj). cbn.
      unfold Int32.add. rewrite Z.add_0_l. by rewrite wrap_add_r.
    + apply lookup_ge_None in Hj.
      rewrite !(proj2 (lookup_ge_None _ _)); [done|..];
        by rewrite entries_from_length.
  - rewrite (final_sum_wrap _ bl2) by done.
    rewrite (final_sum_wrap 0 bl2) by apply zero_InRange.
    unfold Int32.add. rewrite Z.add_0_l. by rewrite wrap_add_r.
Qed.

(** X9: the registry has exactly the keys of the raw table, and the
    entry of a key is built from the bucket list of that key alone:
    setting a key of the raw table sets that key of the registry and
    removing one removes it, the other keys being untouched, whatever the
    order in which the dictionary is enumerated. *)
Theorem X9_registry_key_by_key {DescBodyPart : Type}
    (tempDict : gmap string (BucketList DescBodyPart))
    (key : string) (bl : BucketList DescBodyPart) :
  dom (InitializeDescBodyParts tempDict) = dom tempDict /\
  InitializeDescBodyParts (<[ key := bl ]> tempDict)
  = <[ key := Convert bl ]> (InitializeDescBodyParts tempDict) /\
  InitializeDescBodyParts (delete key tempDict)
  = delete key (InitializeDescBodyParts tempDict).
Proof.
  rewrite !InitializeDescBodyParts_fmap. split; [apply dom_fmap_L|].
  split; [apply fmap_insert | apply fmap_delete].
Qed.

(** ** The last cumulative weight is never read *)

Section LastEntry.

Context {DescBodyPart : Type}.
Implicit Types (items : list (Entry DescBodyPart)) (e : Entry DescBodyPart).

Lemma while_loop_last_irrelevant items e1 e2 target :
  Length (items ++ [e1]) <= Int32.MaxValue ->
  forall fuel st, in_bounds (items ++ [e1]) st ->
    while_loop fuel (items ++ [e1]) target st
    = while_loop fuel (items ++ [e2]) target st.
Proof.
  intros Hlen.
  assert (HL : Length (items ++ [e2]) = Length (items ++ [e1]))
    by (unfold Length; rewrite !length_app; reflexivity).
  induction fuel as [|fuel IH]; intros st Hb; [reflexivity|].
  cbn [while_loop].
  destruct (Z.ltb_spec (fst st) (snd st)) as [Hlt|Hge]; [|reflexivity].
  assert (Hb2 : in_bounds (items ++ [e2]) st)
    by (unfold in_bounds in *; rewrite HL; exact Hb).
  destruct (loop_body_mid (items ++ [e1]) target st Hlen Hb Hlt)
    as (a & Ha & Hbody1).
  destruct (loop_body_mid (items ++ [e2]) target st ltac:(lia) Hb2 Hlt)
    as (b & Hb' & Hbody2).
  pose proof (mid_between _ _ Hlt) as Hmid.
  destruct Hb as (H0 & Hle & Hr).
  assert (Hin : (Z.to_nat (fst st + (snd st - fst st) `div` 2) < length items)%nat).
  { unfold Length in Hr. rewrite length_app in Hr. cbn in Hr. lia. }
  rewrite lookup_app_l in Ha, Hb' by exact Hin.
  rewrite Ha in Hb'. injection Hb' as <-.
  rewrite Hbody1, Hbody2. cbn [mbind result_bind].
  apply IH. unfold in_bounds.
  destruct (CumulativeWeight a <=? target); cbn [fst snd]; lia.
Qed.

End LastEntry.

(** X10: the search never reads the cumulative weight of the last
    entry: on two arrays that differ in their last entry only, the
    search ends at the same index for every target.  (The last entry is
    the one found when all the entries before it are at most the
    target.) *)
Theorem X10_last_cumulative_never_read {DescBodyPart : Type}
    (items : list (Entry DescBodyPart)) (e1 e2 : Entry DescBodyPart)
    (target : Z) (fuel : nat) :
  Length (items ++ [e1]) <= Int32.MaxValue ->
  (length items <= fuel)%nat ->
  exists i : Z,
    search fuel (items ++ [e1]) target = Returned i /\
    search fuel (items ++ [e2]) target = Returned i.
Proof.
  intros Hlen Hfuel.
  assert (HL : Length (items ++ [e2]) = Length (items ++ [e1]))
    by (unfold Length; rewrite !length_app; reflexivity).
  assert (HL1 : Length (items ++ [e1]) = Z.of_nat (length items) + 1)
    by (unfold Length; rewrite length_app; cbn; lia).
  assert (H1 : 1 <= Length (items ++ [e1]) <= Int32.MaxValue) by lia.
  destruct (while_loop_terminates (items ++ [e1]) target fuel H1)
    as (st' & Hrun & _ & _); [lia|].
  exists (fst st'). unfold search.
  rewrite initial_state_nonempty in Hrun |- * by exact H1.
  rewrite initial_state_nonempty by (rewrite HL; exact H1).
  rewrite HL.
  rewrite <- (while_loop_last_irrelevant items e1 e2 target Hlen)
    by (unfold in_bounds; cbn [fst snd]; lia).
  rewrite Hrun. split; reflexivity.
Qed.

Lemma X10_last_cumulative_never_read_witness :
  exists i : Z,
    search 2 ([ {| CumulativeWeight := 3; Value := "A"%string |};
                {| CumulativeWeight := 8; Value := "B"%string |} ]
              ++ [ {| CumulativeWeight := 10; Value := "C"%string |} ]) 9
    = Returned i /\
    search 2 ([ {| CumulativeWeight := 3; Value := "A"%string |};
                {| CumulativeWeight := 8; Value := "B"%string |} ]
              ++ [ {| CumulativeWeight := -7; Value := "C"%string |} ]) 9
    = Returned i.
Proof.
  apply (X10_last_cumulative_never_read
           [ {| CumulativeWeight := 3; Value := "A"%string |};
             {| CumulativeWeight := 8; Value := "B"%string |} ]
           {| CumulativeWeight := 10; Value := "C"%string |}
           {| CumulativeWeight := -7; Value := "C"%string |} 9 2).
  - vm_compute. discriminate.
  - cbn. lia.
Defined.
